(** * ArtStyleFHE: a shallow embedding of [contracts/ArtStyleFHE.sol]

    The contract stores artworks, artist profiles and style matches behind
    integer identifiers and delegates every comparison to the FHE decryption
    oracle: a request function records the oracle's request id in a mapping,
    and a public callback looks the id up again when the result arrives.

    Storage mappings are finite maps read with the zero value as default,
    [uint256]/[uint32] values are integers with Solidity 0.8 checked
    arithmetic written out, a transaction either returns the new storage or
    fails (and then leaves the storage as it was). The FHE library the
    contract imports is an interface ([FHELib]); a transparent instance of
    it is used to run concrete scenarios. *)

From Stdlib Require Import ZArith List Lia Bool.
From Stdlib.Strings Require Import Byte.
From stdpp Require Import base tactics option list numbers gmap strings.

Local Open Scope Z_scope.

(** ** Failures and the result monad *)

Inductive Failure :=
| Revert (reason : string)   (* require(cond, reason) *)
| Panic (code : Z)           (* 0x11 arithmetic overflow, 0x32 index out of bounds *)
| DecodeRevert               (* abi.decode on malformed data *)
| InvalidSignatures.         (* FHE.checkSignatures rejected the proof *)

Inductive result (A : Type) :=
| Ok (a : A)
| Err (f : Failure).
Arguments Ok {A} a.
Arguments Err {A} f.

#[global] Instance result_ret : MRet result := fun _ a => Ok a.
#[global] Instance result_bind : MBind result :=
  fun _ _ k r => match r with Ok a => k a | Err f => Err f end.

Definition require (cond : bool) (reason : string) : result unit :=
  if cond then Ok tt else Err (Revert reason).

Definition is_ok {A} (r : result A) : bool :=
  match r with Ok _ => true | Err _ => false end.

(** ** Machine integers *)

Definition uint256_max : Z := 2 ^ 256 - 1.
Definition uint32_max : Z := 2 ^ 32 - 1.

(** [x++] on a [uint256]. *)
Definition checked_inc (x : Z) : result Z :=
  if x <? uint256_max then Ok (x + 1) else Err (Panic 0x11).

(** [a * b] and [a + b] on [uint32]. *)
Definition checked_mul32 (a b : Z) : result Z :=
  if a * b <=? uint32_max then Ok (a * b) else Err (Panic 0x11).
Definition checked_add32 (a b : Z) : result Z :=
  if a + b <=? uint32_max then Ok (a + b) else Err (Panic 0x11).

(** [uint32(x)] for a [uint256] value [x]. *)
Definition to_uint32 (x : Z) : Z := x mod 2 ^ 32.

(** ** Memory arrays *)

(** [new uint32[](n)]: a zero-initialised array. *)
Definition new_uint32_array (n : Z) : list Z := replicate (Z.to_nat n) 0.

Definition array_length (a : list Z) : Z := Z.of_nat (length a).

(** [a[i]]: bounds-checked read. *)
Definition index (a : list Z) (i : Z) : result Z :=
  if (0 <=? i) && (i <? array_length a)
  then Ok (nth (Z.to_nat i) a 0)
  else Err (Panic 0x32).

(** ** Byte strings and [abi.decode] *)

Definition bytes := list Byte.byte.

#[global] Instance byte_eq_dec : EqDecision Byte.byte := Byte.byte_eq_dec.

Definition byte_to_Z (b : Byte.byte) : Z := Z.of_N (Byte.to_N b).
Definition byte_of_Z (x : Z) : Byte.byte :=
  match Byte.of_N (Z.to_N x) with Some b => b | None => Byte.x00 end.

(** Big-endian value of a byte string. *)
Definition be_to_Z (bs : bytes) : Z :=
  fold_left (fun acc b => acc * 256 + byte_to_Z b) bs 0.

(** The [n] low-order bytes of [x], big-endian. *)
Fixpoint Z_to_be (n : nat) (x : Z) : bytes :=
  match n with
  | O => []
  | S n' => Z_to_be n' (x / 256) ++ [byte_of_Z (x mod 256)]
  end.

(** The 32-byte word at byte offset [off]. *)
Definition word_at (data : bytes) (off : Z) : Z :=
  be_to_Z (take 32 (drop (Z.to_nat off) data)).

Definition data_size (data : bytes) : Z := Z.of_nat (length data).

(** One [uint32] element: the word must have clean high-order bits. *)
Definition abi_decode_uint32_at (data : bytes) (off : Z) : result Z :=
  let v := word_at data off in
  if v <=? uint32_max then Ok v else Err DecodeRevert.

Fixpoint abi_decode_elements (data : bytes) (src : Z) (n : nat) : result (list Z) :=
  match n with
  | O => Ok []
  | S n' =>
      v ← abi_decode_uint32_at data src;
      vs ← abi_decode_elements data (src + 32) n';
      Ok (v :: vs)
  end.

(** [abi.decode(data, (uint32[]))]: a head word holding the offset of the
    array, then its length, then one word per element. Every way in which
    the decoder gives up is reported as [DecodeRevert]. *)
Definition abi_decode_uint32_array (data : bytes) : result (list Z) :=
  if data_size data <? 32 then Err DecodeRevert else
  let offset := word_at data 0 in
  if 2 ^ 64 - 1 <? offset then Err DecodeRevert else
  if negb (offset + 31 <? data_size data) then Err DecodeRevert else
  let len := word_at data offset in
  if 2 ^ 64 - 1 <? len then Err DecodeRevert else
  if data_size data <? offset + 32 + len * 32 then Err DecodeRevert else
  abi_decode_elements data (offset + 32) (Z.to_nat len).

(** [abi.decode(data, (uint32))]. *)
Definition abi_decode_uint32 (data : bytes) : result Z :=
  if data_size data <? 32 then Err DecodeRevert else
  abi_decode_uint32_at data 0.

(** [abi.encode] of a [uint32[]], used to build callback payloads. *)
Definition abi_encode_uint32_array (vs : list Z) : bytes :=
  Z_to_be 32 32 ++ Z_to_be 32 (array_length vs) ++ flat_map (Z_to_be 32) vs.

(** ** The FHE library interface

    [@fhevm/solidity/lib/FHE.sol] is imported by the contract and is not part
    of it. An [euint32] is a 32-byte ciphertext handle. The library keeps
    its own bookkeeping of decryption requests ([Oracle]). *)

Definition euint32 := Z.
Definition bytes32 := Z.

Inductive Selector :=
| analyzeStyle_selector
| checkSignature_selector
| decryptSimilarity_selector.

Class FHELib := {
  Oracle : Type;
  (** state of the library when the contract is deployed *)
  oracle_init : Oracle;
  (** [FHE.asEuint32(v)] *)
  asEuint32 : Z -> euint32;
  (** [FHE.decrypt(h)] *)
  decrypt : euint32 -> Z;
  (** [a != b] on two [euint32] *)
  euint32_neq : euint32 -> euint32 -> bool;
  (** [FHE.requestDecryption(ciphertexts, selector)]: the request id and
      the library's new state *)
  requestDecryption : Oracle -> list bytes32 -> Selector -> Z * Oracle;
  (** [FHE.checkSignatures(requestId, cleartexts, proof)]: [false] when the
      call reverts *)
  checkSignatures : Oracle -> Z -> bytes -> bytes -> bool;
}.

(** [FHE.toBytes32(h)] unwraps the handle. *)
Definition toBytes32 (h : euint32) : bytes32 := h.

(** ** Storage *)

Record Artwork := mkArtwork {
  encryptedImageHash : euint32;
  encryptedStyleVector : euint32;
  encryptedArtistId : euint32;
  timestamp : Z;
}.

Record StyleMatch := mkStyleMatch {
  encryptedSimilarityScore : euint32;
  encryptedReferenceId : euint32;
  isVerified : bool;
}.

Module ArtistProfile.
Record t := mk {
  encryptedSignatureVector : euint32;
  artworkCount : Z;
}.
End ArtistProfile.

Inductive Event :=
| ArtworkSubmitted (artworkId : Z)
| AnalysisRequested (artworkId : Z)
| StyleMatchFound (analysisId : Z)
| VerificationCompleted (analysisId : Z).

#[global] Instance Event_eq_dec : EqDecision Event.
Proof. solve_decision. Defined.

(** The zero value a mapping returns for a key that was never written. *)
Definition zeroArtwork : Artwork := mkArtwork 0 0 0 0.
Definition zeroStyleMatch : StyleMatch := mkStyleMatch 0 0 false.
Definition zeroArtistProfile : ArtistProfile.t := ArtistProfile.mk 0 0.

Section Contract.
Context {fhe : FHELib}.

Record State := mkState {
  artworkCount : Z;
  artistCount : Z;
  analysisCount : Z;
  artworks : gmap Z Artwork;
  styleMatches : gmap Z StyleMatch;
  artistProfiles : gmap Z ArtistProfile.t;
  requestToArtworkId : gmap Z Z;
  requestToAnalysisId : gmap Z Z;
  oracle : Oracle;        (* storage of the FHE library *)
  events : list Event;    (* emitted so far, oldest first *)
}.

Definition init : State :=
  mkState 0 0 0 ∅ ∅ ∅ ∅ ∅ oracle_init [].

(** *** Mapping reads: [m[k]] *)
Definition artworks_at (s : State) (k : Z) : Artwork :=
  default zeroArtwork (artworks s !! k).
Definition styleMatches_at (s : State) (k : Z) : StyleMatch :=
  default zeroStyleMatch (styleMatches s !! k).
Definition artistProfiles_at (s : State) (k : Z) : ArtistProfile.t :=
  default zeroArtistProfile (artistProfiles s !! k).
Definition requestToArtworkId_at (s : State) (k : Z) : Z :=
  default 0 (requestToArtworkId s !! k).
Definition requestToAnalysisId_at (s : State) (k : Z) : Z :=
  default 0 (requestToAnalysisId s !! k).

(** *** Storage writes *)
Definition set_artworkCount (v : Z) (s : State) : State :=
  mkState v (artistCount s) (analysisCount s) (artworks s) (styleMatches s)
    (artistProfiles s) (requestToArtworkId s) (requestToAnalysisId s)
    (oracle s) (events s).
Definition set_artistCount (v : Z) (s : State) : State :=
  mkState (artworkCount s) v (analysisCount s) (artworks s) (styleMatches s)
    (artistProfiles s) (requestToArtworkId s) (requestToAnalysisId s)
    (oracle s) (events s).
Definition set_analysisCount (v : Z) (s : State) : State :=
  mkState (artworkCount s) (artistCount s) v (artworks s) (styleMatches s)
    (artistProfiles s) (requestToArtworkId s) (requestToAnalysisId s)
    (oracle s) (events s).
Definition set_artwork (k : Z) (v : Artwork) (s : State) : State :=
  mkState (artworkCount s) (artistCount s) (analysisCount s)
    (<[k := v]> (artworks s)) (styleMatches s)
    (artistProfiles s) (requestToArtworkId s) (requestToAnalysisId s)
    (oracle s) (events s).
Definition set_styleMatch (k : Z) (v : StyleMatch) (s : State) : State :=
  mkState (artworkCount s) (artistCount s) (analysisCount s)
    (artworks s) (<[k := v]> (styleMatches s))
    (artistProfiles s) (requestToArtworkId s) (requestToAnalysisId s)
    (oracle s) (events s).
Definition set_artistProfile (k : Z) (v : ArtistProfile.t) (s : State) : State :=
  mkState (artworkCount s) (artistCount s) (analysisCount s)
    (artworks s) (styleMatches s)
    (<[k := v]> (artistProfiles s)) (requestToArtworkId s) (requestToAnalysisId s)
    (oracle s) (events s).
Definition set_requestToArtworkId (k v : Z) (s : State) : State :=
  mkState (artworkCount s) (artistCount s) (analysisCount s)
    (artworks s) (styleMatches s)
    (artistProfiles s) (<[k := v]> (requestToArtworkId s)) (requestToAnalysisId s)
    (oracle s) (events s).
Definition set_requestToAnalysisId (k v : Z) (s : State) : State :=
  mkState (artworkCount s) (artistCount s) (analysisCount s)
    (artworks s) (styleMatches s)
    (artistProfiles s) (requestToArtworkId s) (<[k := v]> (requestToAnalysisId s))
    (oracle s) (events s).
Definition set_oracle (o : Oracle) (s : State) : State :=
  mkState (artworkCount s) (artistCount s) (analysisCount s)
    (artworks s) (styleMatches s)
    (artistProfiles s) (requestToArtworkId s) (requestToAnalysisId s)
    o (events s).
Definition emit (e : Event) (s : State) : State :=
  mkState (artworkCount s) (artistCount s) (analysisCount s)
    (artworks s) (styleMatches s)
    (artistProfiles s) (requestToArtworkId s) (requestToAnalysisId s)
    (oracle s) (events s ++ [e]).

(** [styleMatches[k].isVerified = b] *)
Definition set_isVerified (k : Z) (b : bool) (s : State) : State :=
  let m := styleMatches_at s k in
  set_styleMatch k
    (mkStyleMatch (encryptedSimilarityScore m) (encryptedReferenceId m) b) s.

(** [FHE.checkSignatures] as a statement: reverts unless the proof holds. *)
Definition do_checkSignatures (s : State) (requestId : Z)
    (cleartexts proof : bytes) : result unit :=
  if checkSignatures (oracle s) requestId cleartexts proof
  then Ok tt else Err InvalidSignatures.

(** *** registerArtist *)
Definition registerArtist (signatureVector : euint32) (s : State) : result State :=
  n ← checked_inc (artistCount s);
  let s := set_artistCount n s in
  Ok (set_artistProfile n (ArtistProfile.mk signatureVector 0) s).

(** *** submitArtwork; [now] is [block.timestamp] *)
Definition submitArtwork (now : Z) (imageHash styleVector artistId : euint32)
    (s : State) : result State :=
  n ← checked_inc (artworkCount s);
  let s := set_artworkCount n s in
  let s := set_artwork n (mkArtwork imageHash styleVector artistId now) s in
  s ← (if euint32_neq artistId (asEuint32 0) then
         let k := decrypt artistId in
         let p := artistProfiles_at s k in
         c ← checked_inc (ArtistProfile.artworkCount p);
         Ok (set_artistProfile k
               (ArtistProfile.mk (ArtistProfile.encryptedSignatureVector p) c) s)
       else Ok s);
  Ok (emit (ArtworkSubmitted (artworkCount s)) s).

(** *** requestStyleAnalysis *)
Definition requestStyleAnalysis (artworkId referenceId : Z) (s : State)
    : result State :=
  _ ← require (artworkId <=? artworkCount s) "Invalid artwork";
  _ ← require (referenceId <=? artworkCount s) "Invalid reference";
  let ciphertexts :=
    [ toBytes32 (encryptedStyleVector (artworks_at s artworkId));
      toBytes32 (encryptedStyleVector (artworks_at s referenceId));
      toBytes32 (encryptedArtistId (artworks_at s artworkId));
      toBytes32 (encryptedArtistId (artworks_at s referenceId)) ] in
  let '(reqId, o) := requestDecryption (oracle s) ciphertexts analyzeStyle_selector in
  let s := set_oracle o s in
  let s := set_requestToArtworkId reqId artworkId s in
  let s := set_requestToAnalysisId reqId referenceId s in
  Ok (emit (AnalysisRequested artworkId) s).

(** The [for] loop of [analyzeStyle]:
    [similarity += styleVector1[i] * styleVector2[i]] for each [i] below
    [styleVector1.length], in [uint32] arithmetic. *)
Definition similarity_step (styleVector1 styleVector2 : list Z)
    (similarity : Z) (i : Z) : result Z :=
  a ← index styleVector1 i;
  b ← index styleVector2 i;
  p ← checked_mul32 a b;
  checked_add32 similarity p.

Fixpoint similarity_loop (styleVector1 styleVector2 : list Z)
    (similarity : Z) (i : Z) (remaining : nat) : result Z :=
  match remaining with
  | O => Ok similarity
  | S r =>
      similarity ← similarity_step styleVector1 styleVector2 similarity i;
      similarity_loop styleVector1 styleVector2 similarity (i + 1) r
  end.

(** *** analyzeStyle (callback of requestStyleAnalysis) *)
Definition analyzeStyle (requestId : Z) (cleartexts proof : bytes) (s : State)
    : result State :=
  let artworkId := requestToArtworkId_at s requestId in
  let referenceId := requestToAnalysisId_at s requestId in
  _ ← require (negb (artworkId =? 0) && negb (referenceId =? 0)) "Invalid request";
  _ ← do_checkSignatures s requestId cleartexts proof;
  vectors ← abi_decode_uint32_array cleartexts;
  let styleVector1 := new_uint32_array (array_length vectors / 4) in
  let styleVector2 := new_uint32_array (array_length vectors / 4) in
  artistId1 ← index vectors (array_length vectors / 2);
  artistId2 ← index vectors (array_length vectors / 2 + 1);
  similarity ← similarity_loop styleVector1 styleVector2 0 0 (length styleVector1);
  n ← checked_inc (analysisCount s);
  let s := set_analysisCount n s in
  let s := set_styleMatch (analysisCount s)
             (mkStyleMatch (asEuint32 similarity)
                (asEuint32 (to_uint32 referenceId)) false) s in
  let s := if (artistId1 =? artistId2) && negb (artistId1 =? 0)
           then set_isVerified (analysisCount s) true s else s in
  Ok (emit (StyleMatchFound (analysisCount s)) s).

(** *** verifyAuthenticity *)
Definition verifyAuthenticity (analysisId artistId : Z) (s : State) : result State :=
  _ ← require (analysisId <=? analysisCount s) "Invalid analysis";
  _ ← require (artistId <=? artistCount s) "Invalid artist";
  let ciphertexts :=
    [ toBytes32 (encryptedSimilarityScore (styleMatches_at s analysisId));
      toBytes32 (ArtistProfile.encryptedSignatureVector (artistProfiles_at s artistId)) ] in
  let '(reqId, o) := requestDecryption (oracle s) ciphertexts checkSignature_selector in
  let s := set_oracle o s in
  Ok (set_requestToAnalysisId reqId analysisId s).

(** *** checkSignature (callback of verifyAuthenticity) *)
Definition checkSignature (requestId : Z) (cleartexts proof : bytes) (s : State)
    : result State :=
  let analysisId := requestToAnalysisId_at s requestId in
  _ ← require (negb (analysisId =? 0)) "Invalid request";
  _ ← do_checkSignatures s requestId cleartexts proof;
  data ← abi_decode_uint32_array cleartexts;
  similarityScore ← index data 0;
  signatureMatch ← index data 1;
  let isAuthentic := (7000 <? similarityScore) && (8000 <? signatureMatch) in
  let s := set_isVerified analysisId isAuthentic s in
  Ok (emit (VerificationCompleted analysisId) s).

(** *** requestAnalysisProof *)
Definition requestAnalysisProof (analysisId : Z) (s : State) : result State :=
  _ ← require (analysisId <=? analysisCount s) "Invalid analysis";
  _ ← require (isVerified (styleMatches_at s analysisId)) "Not verified";
  let ciphertexts :=
    [ toBytes32 (encryptedSimilarityScore (styleMatches_at s analysisId)) ] in
  let '(reqId, o) := requestDecryption (oracle s) ciphertexts decryptSimilarity_selector in
  let s := set_oracle o s in
  Ok (set_requestToAnalysisId reqId analysisId s).

(** *** decryptSimilarity (callback of requestAnalysisProof) *)
Definition decryptSimilarity (requestId : Z) (cleartexts proof : bytes) (s : State)
    : result State :=
  let analysisId := requestToAnalysisId_at s requestId in
  _ ← require (negb (analysisId =? 0)) "Invalid request";
  _ ← do_checkSignatures s requestId cleartexts proof;
  similarity ← abi_decode_uint32 cleartexts;
  Ok s.

(** *** Views *)
Definition getArtworkCount (s : State) : Z := artworkCount s.
Definition getVerificationStatus (analysisId : Z) (s : State) : bool :=
  isVerified (styleMatches_at s analysisId).
Definition getArtistArtworkCount (artistId : Z) (s : State) : Z :=
  ArtistProfile.artworkCount (artistProfiles_at s artistId).

(** ** Transactions *)

Inductive Call :=
| RegisterArtist (signatureVector : euint32)
| SubmitArtwork (now : Z) (imageHash styleVector artistId : euint32)
| RequestStyleAnalysis (artworkId referenceId : Z)
| AnalyzeStyle (requestId : Z) (cleartexts proof : bytes)
| VerifyAuthenticity (analysisId artistId : Z)
| CheckSignature (requestId : Z) (cleartexts proof : bytes)
| RequestAnalysisProof (analysisId : Z)
| DecryptSimilarity (requestId : Z) (cleartexts proof : bytes).

Definition step (c : Call) (s : State) : result State :=
  match c with
  | RegisterArtist v => registerArtist v s
  | SubmitArtwork now h v a => submitArtwork now h v a s
  | RequestStyleAnalysis a r => requestStyleAnalysis a r s
  | AnalyzeStyle r c p => analyzeStyle r c p s
  | VerifyAuthenticity a r => verifyAuthenticity a r s
  | CheckSignature r c p => checkSignature r c p s
  | RequestAnalysisProof a => requestAnalysisProof a s
  | DecryptSimilarity r c p => decryptSimilarity r c p s
  end.

(** A sequence of transactions, each of which must succeed. *)
Fixpoint run (cs : list Call) (s : State) : result State :=
  match cs with
  | [] => Ok s
  | c :: cs' => s' ← step c s; run cs' s'
  end.

(** The storages the deployed contract can get into. *)
Inductive reachable : State -> Prop :=
| reachable_init : reachable init
| reachable_step s c s' : reachable s -> step c s = Ok s' -> reachable s'.

End Contract.

(** ** A transparent FHE library

    Handles are the cleartext values themselves, request ids are issued
    from a counter, and a decryption proof is valid for a request that was
    issued when it repeats the request id and the cleartexts. *)

Definition attestation (requestId : Z) (cleartexts : bytes) : bytes :=
  Z_to_be 32 requestId ++ cleartexts.

Definition clearFHE : FHELib := {|
  Oracle := Z;
  oracle_init := 0;
  asEuint32 v := v;
  decrypt h := h;
  euint32_neq a b := negb (a =? b);
  requestDecryption o _ _ := (o + 1, o + 1);
  checkSignatures o requestId cleartexts proof :=
    (1 <=? requestId) && (requestId <=? o)
    && bool_decide (proof = attestation requestId cleartexts);
|}.

(** ** Scenarios on the transparent library *)

Section Scenario.
#[local] Existing Instance clearFHE.

Definition state_after (cs : list Call) : State :=
  match run cs init with Ok s => s | Err _ => init end.

(** Artist A (id 1), artworks X (id 1) and Y (id 2) attributed to A, and a
    style analysis of (X, Y) requested: request id 1. *)
Definition setup : list Call :=
  [ RegisterArtist 4242;
    SubmitArtwork 1000 11 21 1;
    SubmitArtwork 1001 12 22 1;
    RequestStyleAnalysis 1 2 ].

(** Vectors [1,2,3] and [4,5,6], then the two artist ids, in the layout
    [analyzeStyle] reads: the artist ids at [length/2] and [length/2+1]. *)
Definition score_payload : bytes :=
  abi_encode_uint32_array [1; 2; 3; 4; 5; 6; 1; 1; 0; 0; 0; 0].
Definition score_callback : Call :=
  AnalyzeStyle 1 score_payload (attestation 1 score_payload).

Definition verify_payload (similarity signatureMatch : Z) : bytes :=
  abi_encode_uint32_array [similarity; signatureMatch].
Definition verify_callback (requestId similarity signatureMatch : Z) : Call :=
  CheckSignature requestId (verify_payload similarity signatureMatch)
    (attestation requestId (verify_payload similarity signatureMatch)).

Definition requested : State := state_after setup.
Definition scored : State := state_after (setup ++ [score_callback]).
Definition verification_requested : State :=
  state_after (setup ++ [score_callback; VerifyAuthenticity 1 1]).
Definition verified : State :=
  state_after (setup ++ [score_callback; VerifyAuthenticity 1 1;
                         verify_callback 2 8000 9000]).
(** A second verification round for analysis 1 after its verdict: request
    id 3, answered with a similarity below the threshold. *)
Definition reverified : State :=
  state_after (setup ++ [score_callback; VerifyAuthenticity 1 1;
                         verify_callback 2 8000 9000;
                         VerifyAuthenticity 1 1;
                         verify_callback 3 5000 9000]).

(** The request id opened by [requestStyleAnalysis] (id 1), presented to
    [checkSignature] before any analysis exists. *)
Definition cross_delivered : State :=
  state_after (setup ++ [verify_callback 1 8000 9000]).

(** An artwork attributed to artist 5 while no artist is registered. *)
Definition unattributed : State :=
  state_after [SubmitArtwork 1000 11 21 5].
(** Payloads that decode to arrays too short for the handlers, and the
    one-word payload of a disclosed score. *)
Definition short_score_payload : bytes := abi_encode_uint32_array [1; 1].
Definition short_verify_payload : bytes := abi_encode_uint32_array [8000].
Definition disclosure_payload : bytes := Z_to_be 32 0.

(** Analysis 1 verified and its proof requested: request id 3. *)
Definition disclosure_requested : State :=
  state_after (setup ++ [score_callback; VerifyAuthenticity 1 1;
                         verify_callback 2 8000 9000;
                         RequestAnalysisProof 1]).

(** One artwork attributed to artist 1 before any artist is registered. *)
Definition early_attribution : State :=
  state_after [SubmitArtwork 1000 11 21 1].
End Scenario.

(** ** Acceptance conditions and outcomes

    The conditions under which each transaction goes through, and the
    storage it leaves, written out once so that the statements below can
    refer to them. *)

Section Outcomes.
Context {fhe : FHELib}.

(** The record [analyzeStyle] stores for an accepted callback. *)
Definition score_record (s : State) (requestId artistId1 artistId2 : Z) : StyleMatch :=
  mkStyleMatch (asEuint32 0)
    (asEuint32 (to_uint32 (requestToAnalysisId_at s requestId)))
    ((artistId1 =? artistId2) && negb (artistId1 =? 0)).

(** [analyzeStyle] gets past its checks and reads the two artist ids. *)
Definition accepts_score (s : State) (requestId : Z) (cleartexts proof : bytes)
    (artistId1 artistId2 : Z) : Prop :=
  exists vectors,
    requestToArtworkId_at s requestId <> 0 /\
    requestToAnalysisId_at s requestId <> 0 /\
    checkSignatures (oracle s) requestId cleartexts proof = true /\
    abi_decode_uint32_array cleartexts = Ok vectors /\
    index vectors (array_length vectors / 2) = Ok artistId1 /\
    index vectors (array_length vectors / 2 + 1) = Ok artistId2.

(** [checkSignature] gets past its checks and reads the two values. *)
Definition accepts_verify (s : State) (requestId : Z) (cleartexts proof : bytes)
    (similarityScore signatureMatch : Z) : Prop :=
  exists data,
    requestToAnalysisId_at s requestId <> 0 /\
    checkSignatures (oracle s) requestId cleartexts proof = true /\
    abi_decode_uint32_array cleartexts = Ok data /\
    index data 0 = Ok similarityScore /\
    index data 1 = Ok signatureMatch.

(** The handles [requestStyleAnalysis] and [verifyAuthenticity] send. *)
Definition style_ciphertexts (s : State) (artworkId referenceId : Z) : list bytes32 :=
  [ toBytes32 (encryptedStyleVector (artworks_at s artworkId));
    toBytes32 (encryptedStyleVector (artworks_at s referenceId));
    toBytes32 (encryptedArtistId (artworks_at s artworkId));
    toBytes32 (encryptedArtistId (artworks_at s referenceId)) ].
Definition verify_ciphertexts (s : State) (analysisId artistId : Z) : list bytes32 :=
  [ toBytes32 (encryptedSimilarityScore (styleMatches_at s analysisId));
    toBytes32 (ArtistProfile.encryptedSignatureVector (artistProfiles_at s artistId)) ].

(** The request id the library hands out for a request made in [s]. *)
Definition issued_token (s : State) (ciphertexts : list bytes32) (sel : Selector) : Z :=
  fst (requestDecryption (oracle s) ciphertexts sel).
Definition oracle_after (s : State) (ciphertexts : list bytes32) (sel : Selector) : Oracle :=
  snd (requestDecryption (oracle s) ciphertexts sel).

(** A callback, as opposed to a request or a registration. *)
Definition is_callback (c : Call) : bool :=
  match c with
  | AnalyzeStyle _ _ _ | CheckSignature _ _ _ | DecryptSimilarity _ _ _ => true
  | _ => false
  end.

(** A [checkSignature] callback whose token is recorded for [analysisId]. *)
Definition is_verdict_for (s : State) (analysisId : Z) (c : Call) : bool :=
  match c with
  | CheckSignature requestId _ _ => requestToAnalysisId_at s requestId =? analysisId
  | _ => false
  end.

End Outcomes.

(** ** Counting calls and events *)

Fixpoint count_if {A} (p : A -> bool) (l : list A) : Z :=
  match l with
  | [] => 0
  | x :: l' => (if p x then 1 else 0) + count_if p l'
  end.

Definition is_ArtworkSubmitted (e : Event) : bool :=
  match e with ArtworkSubmitted _ => true | _ => false end.
Definition is_StyleMatchFound (e : Event) : bool :=
  match e with StyleMatchFound _ => true | _ => false end.

Section Counting.
Context {fhe : FHELib}.

Definition is_RegisterArtist (c : Call) : bool :=
  match c with RegisterArtist _ => true | _ => false end.
Definition is_SubmitArtwork (c : Call) : bool :=
  match c with SubmitArtwork _ _ _ _ => true | _ => false end.
Definition is_AnalyzeStyle (c : Call) : bool :=
  match c with AnalyzeStyle _ _ _ => true | _ => false end.

End Counting.

(** * Properties *)

(** Peel the leading statement off a transaction that is known to succeed
    (or to be decided by it). *)
Ltac step_bind H :=
  match type of H with
  | (@mbind result _ _ _ _ (require ?c _)) = _ =>
      let E := fresh "Hreq" in
      destruct c eqn:E; cbn beta iota delta [mbind result_bind require] in H;
      [| try discriminate H]
  | (@mbind result _ _ _ _ ?r) = _ =>
      let E := fresh "Hbind" in
      destruct r eqn:E; cbn beta iota delta [mbind result_bind] in H;
      [| try discriminate H]
  end.

(** Closed facts about a scenario: evaluate and compare. *)
Ltac conj_compute :=
  repeat match goal with |- _ /\ _ => split end; vm_compute; reflexivity.
Ltac decide_by_compute :=
  apply (bool_decide_unpack _); vm_compute; exact I.

Section Arithmetic.

Lemma checked_inc_Ok x y : checked_inc x = Ok y <-> x < uint256_max /\ y = x + 1.
Proof.
  unfold checked_inc. destruct (Z.ltb_spec x uint256_max); split.
  - intros [= <-]. auto.
  - intros [_ ->]. reflexivity.
  - discriminate.
  - intros [? _]. lia.
Qed.

Lemma nth_replicate_zero (n i : nat) : nth i (replicate n 0) 0 = 0.
Proof.
  revert i. induction n as [|n IH]; intros [|i]; simpl; auto.
Qed.

Lemma index_new_array n i :
  0 <= i < n -> index (new_uint32_array n) i = Ok 0.
Proof.
  intros Hi. unfold index, new_uint32_array, array_length.
  rewrite length_replicate, nth_replicate_zero.
  destruct (Z.leb_spec 0 i); [| lia].
  destruct (Z.ltb_spec i (Z.of_nat (Z.to_nat n))); [reflexivity | lia].
Qed.

Lemma similarity_step_zero n i :
  0 <= i < n ->
  similarity_step (new_uint32_array n) (new_uint32_array n) 0 i = Ok 0.
Proof.
  intros Hi. unfold similarity_step.
  rewrite (index_new_array n i Hi). reflexivity.
Qed.

(** The loop runs over two freshly allocated arrays: nothing is ever
    added to the accumulator. *)
Lemma similarity_loop_zero n r i :
  0 <= i -> i + Z.of_nat r <= Z.max 0 n ->
  similarity_loop (new_uint32_array n) (new_uint32_array n) 0 i r = Ok 0.
Proof.
  revert i. induction r as [|r IH]; intros i H0 Hle; [reflexivity |].
  cbn [similarity_loop]. rewrite similarity_step_zero by lia.
  cbn beta iota delta [mbind result_bind]. apply IH; lia.
Qed.

Lemma similarity_of_fresh_arrays n :
  similarity_loop (new_uint32_array n) (new_uint32_array n) 0 0
    (length (new_uint32_array n)) = Ok 0.
Proof.
  apply similarity_loop_zero; [lia |].
  unfold new_uint32_array. rewrite length_replicate. lia.
Qed.

End Arithmetic.

(** ** The payload codec *)

Section Codec.

Lemma byte_roundtrip x : 0 <= x < 256 -> byte_to_Z (byte_of_Z x) = x.
Proof.
  intros Hx. unfold byte_to_Z, byte_of_Z.
  pose proof (Byte.to_of_N_option_map (Z.to_N x)) as H.
  destruct (N.leb_spec (Z.to_N x) 255) as [Hle|Hgt]; [| lia].
  destruct (Byte.of_N (Z.to_N x)) as [b|]; [| discriminate H].
  injection H as ->. lia.
Qed.

Lemma be_to_Z_snoc (l : bytes) b : be_to_Z (l ++ [b]) = be_to_Z l * 256 + byte_to_Z b.
Proof. unfold be_to_Z. rewrite fold_left_app. reflexivity. Qed.

Lemma length_Z_to_be n : forall x, length (Z_to_be n x) = n.
Proof.
  induction n as [|n IH]; intros x; [reflexivity |].
  cbn [Z_to_be]. rewrite length_app, IH. cbn. lia.
Qed.

Lemma be_to_Z_Z_to_be n : forall x,
  0 <= x -> be_to_Z (Z_to_be n x) = x mod 256 ^ Z.of_nat n.
Proof.
  induction n as [|n IH]; intros x Hx.
  - cbn. rewrite Z.mod_1_r. reflexivity.
  - cbn [Z_to_be]. rewrite be_to_Z_snoc, IH by (apply Z.div_pos; lia).
    rewrite byte_roundtrip by (apply Z.mod_pos_bound; lia).
    rewrite Nat2Z.inj_succ, Z.pow_succ_r by lia.
    rewrite Z.rem_mul_r by lia. lia.
Qed.

Lemma word_at_encoded (pre post : bytes) x :
  0 <= x < 2 ^ 256 ->
  word_at (pre ++ Z_to_be 32 x ++ post) (Z.of_nat (length pre)) = x.
Proof.
  intros Hx. unfold word_at. rewrite Nat2Z.id, drop_app_length.
  rewrite take_app_length' by (symmetry; apply length_Z_to_be).
  rewrite be_to_Z_Z_to_be by lia.
  change (256 ^ Z.of_nat 32) with (2 ^ 256). apply Z.mod_small. exact Hx.
Qed.

Lemma abi_decode_elements_encoded vs : forall pre : bytes,
  Forall (fun v => 0 <= v <= uint32_max) vs ->
  abi_decode_elements (pre ++ flat_map (Z_to_be 32) vs)
    (Z.of_nat (length pre)) (length vs) = Ok vs.
Proof.
  induction vs as [|v vs IH]; intros pre Hvs; [reflexivity |].
  inversion Hvs as [|? ? Hv Hrest]; subst.
  cbn [flat_map length abi_decode_elements]. unfold abi_decode_uint32_at.
  assert (Hv256 : 0 <= v < 2 ^ 256).
  { unfold uint32_max in Hv.
    assert (2 ^ 32 < 2 ^ 256) by (apply Z.pow_lt_mono_r; lia). lia. }
  rewrite word_at_encoded by exact Hv256.
  destruct (Z.leb_spec v uint32_max); [| lia].
  cbn beta iota delta [mbind result_bind].
  replace (Z.of_nat (length pre) + 32) with (Z.of_nat (length (pre ++ Z_to_be 32 v)))
    by (rewrite length_app, length_Z_to_be; lia).
  rewrite (app_assoc pre). rewrite IH by exact Hrest. reflexivity.
Qed.

(** Decoding undoes encoding: every array of [uint32] values is the
    decoding of some payload. *)
Lemma abi_decode_encode vs :
  Forall (fun v => 0 <= v <= uint32_max) vs ->
  array_length vs <= 2 ^ 64 - 1 ->
  abi_decode_uint32_array (abi_encode_uint32_array vs) = Ok vs.
Proof.
  intros Hvs Hlen. unfold abi_decode_uint32_array, abi_encode_uint32_array.
  set (n := array_length vs) in *.
  assert (Hn : 0 <= n) by (unfold n, array_length; lia).
  assert (H64 : 2 ^ 64 < 2 ^ 256) by (apply Z.pow_lt_mono_r; lia).
  assert (Hsize : data_size (Z_to_be 32 32 ++ Z_to_be 32 n ++ flat_map (Z_to_be 32) vs)
                  = 64 + 32 * n).
  { unfold data_size. rewrite !length_app, !length_Z_to_be.
    rewrite (flat_map_constant_length (c := 32%nat))
      by (intros; apply length_Z_to_be).
    unfold n, array_length. lia. }
  rewrite Hsize.
  assert (Hoff : word_at (Z_to_be 32 32 ++ Z_to_be 32 n ++ flat_map (Z_to_be 32) vs) 0 = 32).
  { apply (word_at_encoded [] _ 32). lia. }
  rewrite Hoff.
  assert (Hl : word_at (Z_to_be 32 32 ++ Z_to_be 32 n ++ flat_map (Z_to_be 32) vs) 32 = n).
  { replace 32 with (Z.of_nat (length (Z_to_be 32 32))) at 3
      by (rewrite length_Z_to_be; reflexivity).
    apply word_at_encoded. lia. }
  rewrite Hl.
  destruct (Z.ltb_spec (64 + 32 * n) 32); [lia |].
  destruct (Z.ltb_spec (2 ^ 64 - 1) 32); [lia |].
  destruct (Z.ltb_spec (32 + 31) (64 + 32 * n)); [| lia]. cbn [negb].
  destruct (Z.ltb_spec (2 ^ 64 - 1) n); [lia |].
  destruct (Z.ltb_spec (64 + 32 * n) (32 + 32 + n * 32)); [lia |].
  replace (Z.to_nat n) with (length vs) by (unfold n, array_length; lia).
  rewrite app_assoc.
  replace (32 + 32) with (Z.of_nat (length (Z_to_be 32 32 ++ Z_to_be 32 n)))
    by (rewrite length_app, !length_Z_to_be; reflexivity).
  apply abi_decode_elements_encoded. exact Hvs.
Qed.

End Codec.

Section Callbacks.
Context {fhe : FHELib}.

Lemma analyzeStyle_Ok requestId cleartexts proof s s' :
  analyzeStyle requestId cleartexts proof s = Ok s' <->
  exists artistId1 artistId2,
    accepts_score s requestId cleartexts proof artistId1 artistId2 /\
    analysisCount s < uint256_max /\
    s' = mkState (artworkCount s) (artistCount s) (analysisCount s + 1)
           (artworks s)
           (<[analysisCount s + 1 :=
                score_record s requestId artistId1 artistId2]> (styleMatches s))
           (artistProfiles s) (requestToArtworkId s) (requestToAnalysisId s)
           (oracle s) (events s ++ [StyleMatchFound (analysisCount s + 1)]).
Proof.
  unfold analyzeStyle, do_checkSignatures, accepts_score. split.
  - intros H.
    step_bind H.
    apply andb_prop in Hreq as [Ha Hr].
    apply negb_true_iff, Z.eqb_neq in Ha. apply negb_true_iff, Z.eqb_neq in Hr.
    destruct (checkSignatures _ _ _ _) eqn:Hsig;
      cbn beta iota delta [mbind result_bind] in H; [| discriminate H].
    step_bind H. rename a into vectors.
    step_bind H. rename a into artistId1.
    step_bind H. rename a into artistId2.
    rewrite similarity_of_fresh_arrays in H.
    cbn beta iota delta [mbind result_bind] in H.
    step_bind H. apply checked_inc_Ok in Hbind2 as [Hlt ->].
    exists artistId1, artistId2.
    split; [exists vectors; repeat split; assumption |].
    split; [assumption |].
    injection H as <-. unfold score_record.
    destruct ((artistId1 =? artistId2) && negb (artistId1 =? 0)); [| reflexivity].
    unfold emit, set_isVerified, set_styleMatch, styleMatches_at; cbn.
    rewrite lookup_insert_eq, insert_insert_eq. reflexivity.
  - intros (artistId1 & artistId2 & (vectors & Ha & Hr & Hsig & Hdec & H1 & H2) & Hlt & ->).
    apply Z.eqb_neq in Ha, Hr. rewrite Ha, Hr, Hsig. cbn.
    rewrite Hdec. cbn. rewrite H1, H2. cbn.
    rewrite similarity_of_fresh_arrays. cbn.
    assert (Hinc : checked_inc (analysisCount s) = Ok (analysisCount s + 1))
      by (apply checked_inc_Ok; auto).
    rewrite Hinc. cbn. unfold score_record.
    destruct ((artistId1 =? artistId2) && negb (artistId1 =? 0)); [| reflexivity].
    unfold emit, set_isVerified, set_styleMatch, styleMatches_at; cbn.
    rewrite lookup_insert_eq, insert_insert_eq. reflexivity.
Qed.

End Callbacks.

Section Handlers.
Context {fhe : FHELib}.

Lemma checkSignature_Ok requestId cleartexts proof s s' :
  checkSignature requestId cleartexts proof s = Ok s' <->
  exists similarityScore signatureMatch,
    accepts_verify s requestId cleartexts proof similarityScore signatureMatch /\
    s' = emit (VerificationCompleted (requestToAnalysisId_at s requestId))
           (set_isVerified (requestToAnalysisId_at s requestId)
              ((7000 <? similarityScore) && (8000 <? signatureMatch)) s).
Proof.
  unfold checkSignature, do_checkSignatures, accepts_verify. split.
  - intros H.
    step_bind H. apply negb_true_iff, Z.eqb_neq in Hreq.
    destruct (checkSignatures _ _ _ _) eqn:Hsig;
      cbn beta iota delta [mbind result_bind] in H; [| discriminate H].
    step_bind H. rename a into data.
    step_bind H. rename a into similarityScore.
    step_bind H. rename a into signatureMatch.
    injection H as <-.
    exists similarityScore, signatureMatch.
    split; [exists data; repeat split; assumption | reflexivity].
  - intros (sim & sig & (data & Hid & Hsig & Hdec & H0 & H1) & ->).
    apply Z.eqb_neq in Hid. rewrite Hid, Hsig. cbn.
    rewrite Hdec. cbn. rewrite H0, H1. reflexivity.
Qed.

Lemma decryptSimilarity_Ok requestId cleartexts proof s s' :
  decryptSimilarity requestId cleartexts proof s = Ok s' -> s' = s.
Proof.
  unfold decryptSimilarity, do_checkSignatures. intros H.
  step_bind H.
  destruct (checkSignatures _ _ _ _);
    cbn beta iota delta [mbind result_bind] in H; [| discriminate H].
  step_bind H. congruence.
Qed.

Lemma requestStyleAnalysis_Ok artworkId referenceId s s' :
  requestStyleAnalysis artworkId referenceId s = Ok s' <->
  artworkId <= artworkCount s /\ referenceId <= artworkCount s /\
  let cts := style_ciphertexts s artworkId referenceId in
  let reqId := issued_token s cts analyzeStyle_selector in
  s' = emit (AnalysisRequested artworkId)
         (set_requestToAnalysisId reqId referenceId
            (set_requestToArtworkId reqId artworkId
               (set_oracle (oracle_after s cts analyzeStyle_selector) s))).
Proof.
  unfold requestStyleAnalysis, issued_token, oracle_after, style_ciphertexts.
  destruct (requestDecryption _ _ _) as [reqId o] eqn:Hreq. cbn [fst snd].
  destruct (Z.leb_spec artworkId (artworkCount s)) as [Ha|Ha]; cbn;
    [| split; [discriminate | lia]].
  destruct (Z.leb_spec referenceId (artworkCount s)) as [Hr|Hr]; cbn;
    [| split; [discriminate | lia]].
  split.
  - intros [= <-]. auto.
  - intros (_ & _ & ->). reflexivity.
Qed.

Lemma verifyAuthenticity_Ok analysisId artistId s s' :
  verifyAuthenticity analysisId artistId s = Ok s' <->
  analysisId <= analysisCount s /\ artistId <= artistCount s /\
  let cts := verify_ciphertexts s analysisId artistId in
  s' = set_requestToAnalysisId (issued_token s cts checkSignature_selector) analysisId
         (set_oracle (oracle_after s cts checkSignature_selector) s).
Proof.
  unfold verifyAuthenticity, issued_token, oracle_after, verify_ciphertexts.
  destruct (requestDecryption _ _ _) as [reqId o] eqn:Hreq. cbn [fst snd].
  destruct (Z.leb_spec analysisId (analysisCount s)) as [Ha|Ha]; cbn;
    [| split; [discriminate | lia]].
  destruct (Z.leb_spec artistId (artistCount s)) as [Hr|Hr]; cbn;
    [| split; [discriminate | lia]].
  split.
  - intros [= <-]. auto.
  - intros (_ & _ & ->). reflexivity.
Qed.

(** No callback handler writes to either request mapping. *)
Lemma callback_keeps_requests c s s' :
  is_callback c = true -> step c s = Ok s' ->
  requestToArtworkId s' = requestToArtworkId s /\
  requestToAnalysisId s' = requestToAnalysisId s.
Proof.
  destruct c; try discriminate; intros _ H; cbn [step] in H.
  - apply analyzeStyle_Ok in H as (a1 & a2 & _ & _ & ->). auto.
  - apply checkSignature_Ok in H as (v1 & v2 & _ & ->). auto.
  - apply decryptSimilarity_Ok in H as ->. auto.
Qed.

(** Every accepted score callback stores the encryption of zero. *)
Lemma analyzeStyle_stores_zero requestId cleartexts proof s s' :
  analyzeStyle requestId cleartexts proof s = Ok s' ->
  encryptedSimilarityScore (styleMatches_at s' (analysisCount s')) = asEuint32 0.
Proof.
  intros H. apply analyzeStyle_Ok in H as (a1 & a2 & _ & _ & ->).
  unfold styleMatches_at. cbn. rewrite lookup_insert_eq. reflexivity.
Qed.

End Handlers.

Section Frame.
Context {fhe : FHELib}.

(** Only the two callbacks that create or update a style match touch
    [styleMatches] and [analysisCount]; events are only ever appended. *)
Lemma other_calls_keep_matches c s s' :
  step c s = Ok s' ->
  match c with
  | AnalyzeStyle _ _ _ | CheckSignature _ _ _ => True
  | _ => styleMatches s' = styleMatches s /\
         analysisCount s' = analysisCount s /\
         exists l, events s' = events s ++ l
  end.
Proof.
  destruct c; cbn [step]; intros H; try exact I.
  - unfold registerArtist in H. step_bind H. injection H as <-.
    cbn. repeat split. exists []. symmetry. apply app_nil_r.
  - unfold submitArtwork in H. step_bind H.
    destruct (euint32_neq _ _).
    + step_bind H. step_bind Hbind0.
      injection Hbind0 as <-. injection H as <-.
      cbn. repeat split. eauto.
    + cbn beta iota delta [mbind result_bind] in H. injection H as <-.
      cbn. repeat split. eauto.
  - apply requestStyleAnalysis_Ok in H as (_ & _ & ->).
    cbn. repeat split. eauto.
  - apply verifyAuthenticity_Ok in H as (_ & _ & ->).
    cbn. repeat split. exists []. symmetry. apply app_nil_r.
  - unfold requestAnalysisProof in H. step_bind H. step_bind H.
    destruct (requestDecryption _ _ _) as [reqId o]. injection H as <-.
    cbn. repeat split. exists []. symmetry. apply app_nil_r.
  - apply decryptSimilarity_Ok in H as ->.
    repeat split. exists []. symmetry. apply app_nil_r.
Qed.

Lemma run_reachable cs : forall s s',
  reachable s -> run cs s = Ok s' -> reachable s'.
Proof.
  induction cs as [|c cs IH]; intros s s' Hs H; cbn [run] in H.
  - congruence.
  - step_bind H. eapply IH; [| exact H]. eapply reachable_step; eauto.
Qed.

Lemma reachable_analysisCount_nonneg s : reachable s -> 0 <= analysisCount s.
Proof.
  induction 1 as [|s c s' Hs IH Hstep]; [cbn; lia |].
  pose proof (other_calls_keep_matches c s s' Hstep) as Hk.
  destruct c; cbn [step] in Hstep;
    try (destruct Hk as (_ & -> & _); exact IH).
  - apply analyzeStyle_Ok in Hstep as (a1 & a2 & _ & _ & ->). cbn. lia.
  - apply checkSignature_Ok in Hstep as (v1 & v2 & _ & ->). exact IH.
Qed.

End Frame.

(** ** The scenarios run *)

Section ScenarioRuns.
#[local] Existing Instance clearFHE.

Lemma run_app cs1 : forall cs2 s,
  run (cs1 ++ cs2) s = (s' ← run cs1 s; run cs2 s').
Proof.
  induction cs1 as [|c cs1 IH]; intros cs2 s; [reflexivity |].
  cbn [app run]. destruct (step c s) as [s1|f]; [| reflexivity].
  cbn beta iota delta [mbind result_bind]. apply IH.
Qed.

Lemma state_after_ok cs :
  is_ok (run cs init) = true -> run cs init = Ok (state_after cs).
Proof.
  unfold state_after. destruct (run cs init); [reflexivity | discriminate].
Qed.

Lemma state_after_step cs c :
  is_ok (run (cs ++ [c]) init) = true ->
  step c (state_after cs) = Ok (state_after (cs ++ [c])).
Proof.
  intros H. pose proof (state_after_ok _ H) as Hr.
  rewrite run_app in Hr. unfold state_after at 1.
  destruct (run cs init) as [s|f]; [| discriminate Hr].
  cbn beta iota delta [mbind result_bind run] in Hr.
  destruct (step c s) as [s1|f]; [| discriminate Hr].
  exact Hr.
Qed.

Lemma state_after_run cs1 cs2 :
  is_ok (run (cs1 ++ cs2) init) = true ->
  run cs2 (state_after cs1) = Ok (state_after (cs1 ++ cs2)).
Proof.
  intros H. pose proof (state_after_ok _ H) as Hr.
  rewrite run_app in Hr. unfold state_after at 1.
  destruct (run cs1 init) as [s|f]; [| discriminate Hr].
  exact Hr.
Qed.

Lemma state_after_reachable cs :
  is_ok (run cs init) = true -> reachable (state_after cs).
Proof.
  intros H. apply (run_reachable cs init); [exact reachable_init |].
  apply state_after_ok. exact H.
Qed.

Lemma abi_decode_score_payload :
  abi_decode_uint32_array score_payload = Ok [1; 2; 3; 4; 5; 6; 1; 1; 0; 0; 0; 0].
Proof. vm_compute. reflexivity. Qed.

Lemma abi_decode_verify_payload :
  abi_decode_uint32_array (verify_payload 8000 9000) = Ok [8000; 9000].
Proof. vm_compute. reflexivity. Qed.

Lemma setup_runs : run setup init = Ok requested.
Proof. apply state_after_ok. vm_compute. reflexivity. Qed.

Lemma request_runs :
  step (RequestStyleAnalysis 1 2) (state_after (removelast setup)) = Ok requested.
Proof.
  apply (state_after_step (removelast setup) (RequestStyleAnalysis 1 2)).
  vm_compute. reflexivity.
Qed.

Lemma score_callback_runs : step score_callback requested = Ok scored.
Proof. apply (state_after_step setup score_callback). vm_compute. reflexivity. Qed.

Lemma verify_request_runs :
  step (VerifyAuthenticity 1 1) scored = Ok verification_requested.
Proof.
  apply (state_after_step (setup ++ [score_callback]) (VerifyAuthenticity 1 1)).
  vm_compute. reflexivity.
Qed.

Lemma verify_callback_runs :
  step (verify_callback 2 8000 9000) verification_requested = Ok verified.
Proof.
  apply (state_after_step (setup ++ [score_callback; VerifyAuthenticity 1 1])
           (verify_callback 2 8000 9000)).
  vm_compute. reflexivity.
Qed.

Lemma replayed_callback_runs :
  step score_callback scored
    = Ok (state_after (setup ++ [score_callback; score_callback])).
Proof.
  apply (state_after_step (setup ++ [score_callback]) score_callback).
  vm_compute. reflexivity.
Qed.

Lemma cross_delivery_runs :
  step (verify_callback 1 8000 9000) requested = Ok cross_delivered.
Proof.
  apply (state_after_step setup (verify_callback 1 8000 9000)).
  vm_compute. reflexivity.
Qed.

Lemma unattributed_runs : step (SubmitArtwork 1000 11 21 5) init = Ok unattributed.
Proof.
  apply (state_after_step [] (SubmitArtwork 1000 11 21 5)). vm_compute. reflexivity.
Qed.

Lemma scored_reachable : reachable scored.
Proof. apply state_after_reachable. vm_compute. reflexivity. Qed.

Lemma verified_reachable : reachable verified.
Proof. apply state_after_reachable. vm_compute. reflexivity. Qed.

Lemma cross_delivered_reachable : reachable cross_delivered.
Proof. apply state_after_reachable. vm_compute. reflexivity. Qed.

End ScenarioRuns.

(** ** Replayed callbacks *)

Section Replay.
Context {fhe : FHELib}.

(** C1, as amended. The contract never marks a request id as used: when
    [analyzeStyle] has accepted a callback, delivering the identical
    (request id, cleartexts, proof) again is accepted again. The second
    delivery appends one more style match, with the same contents, under
    the next analysis id and leaves the record stored by the first
    delivery as it was; and no callback handler writes to either request
    mapping, so the entry stays in place for every later delivery. *)
Theorem analyzeStyle_replay_accepted requestId cleartexts proof s s1 :
  analyzeStyle requestId cleartexts proof s = Ok s1 ->
  analysisCount s1 < uint256_max ->
  (exists s2,
     analyzeStyle requestId cleartexts proof s1 = Ok s2 /\
     analysisCount s2 = analysisCount s1 + 1 /\
     styleMatches_at s2 (analysisCount s1) = styleMatches_at s1 (analysisCount s1) /\
     styleMatches_at s2 (analysisCount s2) = styleMatches_at s1 (analysisCount s1)) /\
  (forall c s', is_callback c = true -> step c s1 = Ok s' ->
     requestToArtworkId s' = requestToArtworkId s /\
     requestToAnalysisId s' = requestToAnalysisId s).
Proof.
  intros H Hlt.
  apply analyzeStyle_Ok in H as (a1 & a2 & Hacc & _ & ->). cbn in Hlt.
  split.
  - eexists. split.
    + apply analyzeStyle_Ok. exists a1, a2.
      split; [exact Hacc |]. split; [exact Hlt | reflexivity].
    + cbn. split; [reflexivity |].
      unfold styleMatches_at; cbn.
      rewrite lookup_insert_ne by lia.
      rewrite !lookup_insert_eq. split; reflexivity.
  - intros c s' Hc Hstep.
    apply (callback_keeps_requests c _ s' Hc) in Hstep. exact Hstep.
Qed.

End Replay.

Section ReplayScenario.
#[local] Existing Instance clearFHE.

Lemma analyzeStyle_replay_accepted_witness :
  analyzeStyle 1 score_payload (attestation 1 score_payload) requested = Ok scored /\
  analysisCount scored < uint256_max /\
  exists s2,
    analyzeStyle 1 score_payload (attestation 1 score_payload) scored = Ok s2 /\
    analysisCount s2 = analysisCount scored + 1 /\
    styleMatches_at s2 (analysisCount scored) = styleMatches_at scored (analysisCount scored).
Proof.
  assert (H1 : analyzeStyle 1 score_payload (attestation 1 score_payload) requested
               = Ok scored) by exact score_callback_runs.
  assert (H2 : analysisCount scored < uint256_max) by (vm_compute; reflexivity).
  split; [exact H1 |]. split; [exact H2 |].
  destruct (analyzeStyle_replay_accepted _ _ _ _ _ H1 H2) as [(s2 & Hs2 & Hc & Hm & _) _].
  exists s2. split; [exact Hs2 |]. split; [exact Hc | exact Hm].
Defined.

(** The second delivery of the same callback does not fail: it is
    accepted and a second analysis is recorded. *)
Lemma replay_not_rejected :
  analyzeStyle 1 score_payload (attestation 1 score_payload) requested = Ok scored /\
  analyzeStyle 1 score_payload (attestation 1 score_payload) scored
    = Ok (state_after (setup ++ [score_callback; score_callback])) /\
  analysisCount scored = 1 /\
  analysisCount (state_after (setup ++ [score_callback; score_callback])) = 2.
Proof.
  split; [exact score_callback_runs |].
  split; [exact replayed_callback_runs |].
  conj_compute.
Qed.

(** C2, at the scenario of the specification: vectors [1,2,3] and
    [4,5,6] with matching artist ids are delivered for request 1 and
    accepted, and the score stored on analysis 1 decrypts to 0, not 32.
    The two arrays the loop multiplies are freshly allocated and never
    filled from the decoded payload. *)
Theorem analyzeStyle_scenario_score :
  abi_decode_uint32_array score_payload = Ok [1; 2; 3; 4; 5; 6; 1; 1; 0; 0; 0; 0] /\
  analyzeStyle 1 score_payload (attestation 1 score_payload) requested = Ok scored /\
  analysisCount scored = 1 /\
  decrypt (encryptedSimilarityScore (styleMatches_at scored 1)) = 0 /\
  decrypt (encryptedSimilarityScore (styleMatches_at scored 1)) <> 32.
Proof.
  split; [exact abi_decode_score_payload |].
  split; [exact score_callback_runs |].
  assert (Hc : analysisCount scored = 1) by (vm_compute; reflexivity).
  split; [exact Hc |].
  pose proof (analyzeStyle_stores_zero _ _ _ _ _ score_callback_runs) as Hz.
  rewrite Hc in Hz. rewrite Hz. cbn. split; [reflexivity | discriminate].
Qed.

End ReplayScenario.

(** ** Requests *)

Section Requests.
Context {fhe : FHELib}.

(** C3, as amended. [requestStyleAnalysis] looks only at the two ids: it
    keeps no record of outstanding requests, so a second call for the
    same artwork pair, made while the callback of the first is still
    outstanding, succeeds again, issues a further oracle request and
    records the pair under the new request id. *)
Theorem requestStyleAnalysis_repeat_accepted artworkId referenceId s s1 :
  requestStyleAnalysis artworkId referenceId s = Ok s1 ->
  exists s2,
    requestStyleAnalysis artworkId referenceId s1 = Ok s2 /\
    let cts := style_ciphertexts s1 artworkId referenceId in
    let reqId := issued_token s1 cts analyzeStyle_selector in
    oracle s2 = oracle_after s1 cts analyzeStyle_selector /\
    requestToArtworkId_at s2 reqId = artworkId /\
    requestToAnalysisId_at s2 reqId = referenceId /\
    events s2 = events s1 ++ [AnalysisRequested artworkId].
Proof.
  intros H. apply requestStyleAnalysis_Ok in H as (Ha & Hr & ->).
  eexists. split.
  - apply requestStyleAnalysis_Ok. cbn. split; [exact Ha |].
    split; [exact Hr | reflexivity].
  - cbn. unfold requestToArtworkId_at, requestToAnalysisId_at. cbn.
    rewrite !lookup_insert_eq. repeat split.
Qed.

(** C4, as amended. [verifyAuthenticity] has no workflow state to look
    at. For an analysis id above [analysisCount] it fails with "Invalid
    analysis" (and so changes nothing); for the id of a stored style
    match and the id of a registered artist it is accepted whatever has
    been recorded for the analysis so far: it leaves every style match
    untouched, issues an oracle request and records the analysis id
    under the new request id. *)
Theorem verifyAuthenticity_checks_ids_only analysisId artistId s :
  (analysisCount s < analysisId ->
     verifyAuthenticity analysisId artistId s = Err (Revert "Invalid analysis")) /\
  (1 <= analysisId <= analysisCount s -> 1 <= artistId <= artistCount s ->
     exists s',
       verifyAuthenticity analysisId artistId s = Ok s' /\
       styleMatches s' = styleMatches s /\
       let cts := verify_ciphertexts s analysisId artistId in
       oracle s' = oracle_after s cts checkSignature_selector /\
       requestToAnalysisId_at s' (issued_token s cts checkSignature_selector)
         = analysisId).
Proof.
  split.
  - intros Hgt. unfold verifyAuthenticity.
    destruct (Z.leb_spec analysisId (analysisCount s)); [lia | reflexivity].
  - intros Ha Hr. eexists. split.
    + apply verifyAuthenticity_Ok. split; [lia |]. split; [lia | reflexivity].
    + cbn. unfold requestToAnalysisId_at. cbn.
      rewrite lookup_insert_eq. repeat split.
Qed.

(** Ids above [artworkCount] are turned down before anything is issued. *)
Lemma requestStyleAnalysis_rejects_large_ids artworkId referenceId s :
  artworkCount s < artworkId \/ artworkCount s < referenceId ->
  exists reason, requestStyleAnalysis artworkId referenceId s = Err (Revert reason).
Proof.
  intros H. unfold requestStyleAnalysis.
  destruct (Z.leb_spec artworkId (artworkCount s)) as [Ha|Ha]; cbn; [| eauto].
  destruct (Z.leb_spec referenceId (artworkCount s)) as [Hr|Hr]; cbn; [lia | eauto].
Qed.

(** C7, on the code: the two [require]s only bound the ids from above,
    so the pair (0, 0) gets through although id 0 denotes no artwork; an
    oracle request is issued and the event is emitted. *)
Theorem requestStyleAnalysis_accepts_zero_ids s :
  0 <= artworkCount s ->
  exists s',
    requestStyleAnalysis 0 0 s = Ok s' /\
    let cts := style_ciphertexts s 0 0 in
    oracle s' = oracle_after s cts analyzeStyle_selector /\
    requestToArtworkId s' !! issued_token s cts analyzeStyle_selector = Some 0 /\
    events s' = events s ++ [AnalysisRequested 0].
Proof.
  intros H0. eexists. split.
  - apply requestStyleAnalysis_Ok. split; [exact H0 |].
    split; [exact H0 | reflexivity].
  - cbn. rewrite lookup_insert_eq. repeat split.
Qed.

(** C8, as amended. Requests carry no kind. A request id handed out by
    [verifyAuthenticity] that [requestStyleAnalysis] has not recorded is
    turned down by [analyzeStyle] with "Invalid request", whatever the
    payload, because no artwork id is stored under it; the analysis id
    stays recorded under it for [checkSignature] to read. *)
Theorem verify_token_rejected_by_analyzeStyle analysisId artistId s s1 :
  verifyAuthenticity analysisId artistId s = Ok s1 ->
  let reqId :=
    issued_token s (verify_ciphertexts s analysisId artistId) checkSignature_selector in
  requestToArtworkId_at s reqId = 0 ->
  requestToAnalysisId_at s1 reqId = analysisId /\
  forall cleartexts proof,
    analyzeStyle reqId cleartexts proof s1 = Err (Revert "Invalid request").
Proof.
  intros H reqId Hfresh. apply verifyAuthenticity_Ok in H as (_ & _ & ->).
  fold reqId. split.
  - unfold requestToAnalysisId_at. cbn. rewrite lookup_insert_eq. reflexivity.
  - intros cleartexts proof. unfold analyzeStyle.
    replace (requestToArtworkId_at _ reqId) with 0 by (symmetry; exact Hfresh).
    reflexivity.
Qed.

End Requests.

Section RequestScenarios.
#[local] Existing Instance clearFHE.

Lemma requestStyleAnalysis_repeat_accepted_witness :
  requestStyleAnalysis 1 2 (state_after (removelast setup)) = Ok requested /\
  exists s2,
    requestStyleAnalysis 1 2 requested = Ok s2 /\
    oracle s2 = 2 /\
    requestToArtworkId_at s2 2 = 1 /\
    requestToAnalysisId_at s2 2 = 2.
Proof.
  assert (H1 : requestStyleAnalysis 1 2 (state_after (removelast setup)) = Ok requested)
    by exact request_runs.
  split; [exact H1 |].
  destruct (requestStyleAnalysis_repeat_accepted _ _ _ _ H1)
    as (s2 & Hs2 & Ho & Ha & Hr & _).
  assert (Htok : issued_token requested (style_ciphertexts requested 1 2)
                   analyzeStyle_selector = 2) by (vm_compute; reflexivity).
  rewrite Htok in Ha, Hr.
  exists s2. split; [exact Hs2 |].
  split; [rewrite Ho; vm_compute; reflexivity |].
  split; [exact Ha | exact Hr].
Defined.

(** With request 1 for the pair (1, 2) still unanswered, the same request
    goes through a second time and a second oracle request (id 2) is out. *)
Lemma second_request_not_rejected :
  requestToArtworkId_at requested 1 = 1 /\
  requestToAnalysisId_at requested 1 = 2 /\
  analysisCount requested = 0 /\
  oracle requested = 1 /\
  requestStyleAnalysis 1 2 requested
    = Ok (state_after (setup ++ [RequestStyleAnalysis 1 2])) /\
  oracle (state_after (setup ++ [RequestStyleAnalysis 1 2])) = 2 /\
  requestToArtworkId_at (state_after (setup ++ [RequestStyleAnalysis 1 2])) 2 = 1 /\
  requestToAnalysisId_at (state_after (setup ++ [RequestStyleAnalysis 1 2])) 2 = 2.
Proof.
  do 4 (split; [vm_compute; reflexivity |]).
  split; [| conj_compute].
  apply (state_after_step setup (RequestStyleAnalysis 1 2)). vm_compute. reflexivity.
Qed.

Lemma verifyAuthenticity_checks_ids_only_witness :
  analysisCount scored < 2 /\
  verifyAuthenticity 2 1 scored = Err (Revert "Invalid analysis") /\
  1 <= 1 <= analysisCount verified /\
  1 <= 1 <= artistCount verified /\
  exists s',
    verifyAuthenticity 1 1 verified = Ok s' /\
    styleMatches s' = styleMatches verified /\
    oracle s' = 3.
Proof.
  destruct (verifyAuthenticity_checks_ids_only 2 1 scored) as [Hrej _].
  destruct (verifyAuthenticity_checks_ids_only 1 1 verified) as [_ Hacc].
  assert (H1 : analysisCount scored < 2) by (vm_compute; reflexivity).
  assert (H2 : 1 <= 1 <= analysisCount verified) by (vm_compute; split; discriminate).
  assert (H3 : 1 <= 1 <= artistCount verified) by (vm_compute; split; discriminate).
  split; [exact H1 |]. split; [exact (Hrej H1) |].
  split; [exact H2 |]. split; [exact H3 |].
  destruct (Hacc H2 H3) as (s' & Hs' & Hm & Ho & _).
  exists s'. split; [exact Hs' |]. split; [exact Hm |].
  rewrite Ho. vm_compute. reflexivity.
Defined.

(** Analysis 1 has had its verification callback (it is past the scored
    stage, with a verdict recorded), and [verifyAuthenticity] on it still
    succeeds and issues oracle request 3. *)
Lemma verifyAuthenticity_after_verdict_not_rejected :
  (VerificationCompleted 1 ∈ events verified) /\
  getVerificationStatus 1 verified = true /\
  oracle verified = 2 /\
  verifyAuthenticity 1 1 verified
    = Ok (state_after (setup ++ [score_callback; VerifyAuthenticity 1 1;
                                 verify_callback 2 8000 9000;
                                 VerifyAuthenticity 1 1])) /\
  oracle (state_after (setup ++ [score_callback; VerifyAuthenticity 1 1;
                                 verify_callback 2 8000 9000;
                                 VerifyAuthenticity 1 1])) = 3.
Proof.
  split; [decide_by_compute |].
  do 2 (split; [vm_compute; reflexivity |]).
  split; [| vm_compute; reflexivity].
  apply (state_after_step
           (setup ++ [score_callback; VerifyAuthenticity 1 1;
                      verify_callback 2 8000 9000]) (VerifyAuthenticity 1 1)).
  vm_compute. reflexivity.
Qed.

Lemma requestStyleAnalysis_accepts_zero_ids_witness :
  0 <= artworkCount init /\
  exists s',
    requestStyleAnalysis 0 0 init = Ok s' /\
    oracle s' = 1 /\
    requestToArtworkId s' !! 1 = Some 0 /\
    events s' = [AnalysisRequested 0].
Proof.
  assert (H0 : 0 <= artworkCount init) by (vm_compute; discriminate).
  split; [exact H0 |].
  destruct (requestStyleAnalysis_accepts_zero_ids init H0) as (s' & Hs' & Ho & Hm & He).
  exists s'. split; [exact Hs' |].
  split; [exact Ho |]. split; [exact Hm | exact He].
Defined.

Lemma verify_token_rejected_by_analyzeStyle_witness :
  verifyAuthenticity 1 1 scored = Ok verification_requested /\
  requestToArtworkId_at scored 2 = 0 /\
  requestToAnalysisId_at verification_requested 2 = 1 /\
  analyzeStyle 2 score_payload (attestation 2 score_payload) verification_requested
    = Err (Revert "Invalid request").
Proof.
  assert (H1 : verifyAuthenticity 1 1 scored = Ok verification_requested)
    by exact verify_request_runs.
  assert (Htok : issued_token scored (verify_ciphertexts scored 1 1)
                   checkSignature_selector = 2) by (vm_compute; reflexivity).
  assert (H2 : requestToArtworkId_at scored 2 = 0) by (vm_compute; reflexivity).
  pose proof (verify_token_rejected_by_analyzeStyle 1 1 scored _ H1) as H.
  cbv zeta in H. rewrite Htok in H. destruct (H H2) as [Hid Hrej].
  split; [exact H1 |]. split; [exact H2 |]. split; [exact Hid |].
  exact (Hrej score_payload (attestation 2 score_payload)).
Defined.

(** Request 1 was opened by [requestStyleAnalysis] for [analyzeStyle]; the
    callback of the other kind, [checkSignature], accepts it and writes a
    verdict under the reference artwork's id. *)
Lemma score_token_accepted_by_checkSignature :
  requestToArtworkId_at requested 1 = 1 /\
  checkSignature 1 (verify_payload 8000 9000)
    (attestation 1 (verify_payload 8000 9000)) requested = Ok cross_delivered /\
  styleMatches_at requested 2 = zeroStyleMatch /\
  styleMatches_at cross_delivered 2 = mkStyleMatch 0 0 true /\
  events cross_delivered = events requested ++ [VerificationCompleted 2].
Proof.
  split; [vm_compute; reflexivity |].
  split; [exact cross_delivery_runs |].
  conj_compute.
Qed.

End RequestScenarios.

(** ** Verdicts *)

Section Verdicts.
Context {fhe : FHELib}.

(** C5, as amended. The record of an existing analysis, and with it the
    verdict, is left as it is by every transaction that succeeds, except
    a [checkSignature] callback whose request id is recorded for that
    analysis: such a callback may be accepted again later and then
    overwrites the verdict. *)
Theorem verdict_kept_by_other_calls c s s' analysisId :
  step c s = Ok s' ->
  1 <= analysisId <= analysisCount s ->
  is_verdict_for s analysisId c = false ->
  styleMatches_at s' analysisId = styleMatches_at s analysisId /\
  getVerificationStatus analysisId s' = getVerificationStatus analysisId s.
Proof.
  intros Hstep Hid Hc.
  assert (Hm : styleMatches_at s' analysisId = styleMatches_at s analysisId).
  { pose proof (other_calls_keep_matches c s s' Hstep) as Hk.
    unfold styleMatches_at.
    destruct c; cbn [step] in Hstep;
      try (destruct Hk as (-> & _ & _); reflexivity).
    - apply analyzeStyle_Ok in Hstep as (a1 & a2 & _ & _ & ->). cbn.
      rewrite lookup_insert_ne by lia. reflexivity.
    - apply checkSignature_Ok in Hstep as (v1 & v2 & _ & ->). cbn.
      cbn in Hc. apply Z.eqb_neq in Hc.
      rewrite lookup_insert_ne by exact Hc. reflexivity. }
  split; [exact Hm |]. unfold getVerificationStatus. rewrite Hm. reflexivity.
Qed.

(** C6. When [checkSignature] accepts a callback whose payload decodes to
    a similarity value and a signature-match value, the analysis recorded
    for the request is marked verified exactly when the similarity is
    above 7000 and the signature match is above 8000, and is marked not
    verified otherwise; so 8000 with 9000 gives verified, and a similarity
    of 5000 gives not verified. *)
Theorem checkSignature_verdict requestId cleartexts proof s s'
    data similarityScore signatureMatch :
  checkSignature requestId cleartexts proof s = Ok s' ->
  abi_decode_uint32_array cleartexts = Ok data ->
  index data 0 = Ok similarityScore ->
  index data 1 = Ok signatureMatch ->
  let analysisId := requestToAnalysisId_at s requestId in
  (getVerificationStatus analysisId s' = true <->
     7000 < similarityScore /\ 8000 < signatureMatch) /\
  (getVerificationStatus analysisId s' = false <->
     ~ (7000 < similarityScore /\ 8000 < signatureMatch)) /\
  (similarityScore = 8000 -> signatureMatch = 9000 ->
     getVerificationStatus analysisId s' = true) /\
  (similarityScore = 5000 -> getVerificationStatus analysisId s' = false).
Proof.
  intros H Hdec H0 H1 analysisId.
  apply checkSignature_Ok in H as (v0 & v1 & (data' & _ & _ & Hdec' & H0' & H1') & ->).
  assert (data' = data) as -> by congruence.
  assert (v0 = similarityScore) as -> by congruence.
  assert (v1 = signatureMatch) as -> by congruence.
  assert (Hv : getVerificationStatus analysisId
                 (emit (VerificationCompleted analysisId)
                    (set_isVerified analysisId
                       ((7000 <? similarityScore) && (8000 <? signatureMatch)) s))
               = (7000 <? similarityScore) && (8000 <? signatureMatch)).
  { unfold getVerificationStatus, styleMatches_at. cbn.
    rewrite lookup_insert_eq. reflexivity. }
  fold analysisId. rewrite Hv.
  destruct (Z.ltb_spec 7000 similarityScore), (Z.ltb_spec 8000 signatureMatch);
    cbn; repeat split; try tauto; try discriminate; try lia; intros; try lia.
Qed.

End Verdicts.

(** ** Attribution *)

Section Attribution.
Context {fhe : FHELib}.

(** C9, on the code. [submitArtwork] tests the artist handle against the
    encryption of zero and nothing else: whenever the handle differs, the
    count stored under the decrypted artist id goes up by one, whether or
    not that id is at most [artistCount], and [artistCount] stays as it
    was. *)
Theorem submitArtwork_counts_without_lookup now imageHash styleVector artistId s s' :
  submitArtwork now imageHash styleVector artistId s = Ok s' ->
  euint32_neq artistId (asEuint32 0) = true ->
  getArtistArtworkCount (decrypt artistId) s'
    = getArtistArtworkCount (decrypt artistId) s + 1 /\
  artistCount s' = artistCount s /\
  encryptedArtistId (artworks_at s' (artworkCount s')) = artistId.
Proof.
  intros H Hne. unfold submitArtwork in H. rewrite Hne in H.
  step_bind H. apply checked_inc_Ok in Hbind as [_ ->].
  step_bind H. step_bind Hbind. apply checked_inc_Ok in Hbind0 as [_ ->].
  injection Hbind as <-. injection H as <-.
  unfold getArtistArtworkCount, artistProfiles_at, artworks_at. cbn.
  rewrite !lookup_insert_eq. cbn. repeat split.
Qed.

(** With the handle of zero nothing but the artwork is stored. *)
Lemma submitArtwork_zero_handle_keeps_profiles now imageHash styleVector artistId s s' :
  submitArtwork now imageHash styleVector artistId s = Ok s' ->
  euint32_neq artistId (asEuint32 0) = false ->
  artistProfiles s' = artistProfiles s.
Proof.
  intros H Hne. unfold submitArtwork in H. rewrite Hne in H.
  step_bind H. cbn beta iota delta [mbind result_bind] in H.
  injection H as <-. reflexivity.
Qed.

End Attribution.

(** ** Reading the verification status *)

Section Status.
Context {fhe : FHELib}.

Lemma unknown_verified_only_by_callback s :
  reachable s ->
  forall analysisId,
    analysisId <= 0 \/ analysisCount s < analysisId ->
    getVerificationStatus analysisId s = true ->
    analysisId <> 0 /\ VerificationCompleted analysisId ∈ events s.
Proof.
  induction 1 as [|s c s' Hs IH Hstep]; intros analysisId Hid Hv.
  - discriminate Hv.
  - pose proof (reachable_analysisCount_nonneg s Hs) as Hn.
    pose proof (other_calls_keep_matches c s s' Hstep) as Hk.
    unfold getVerificationStatus, styleMatches_at in *.
    destruct c; cbn [step] in Hstep;
      try (destruct Hk as (Hm & Hc & l & He); rewrite Hm in Hv; rewrite Hc in Hid;
           destruct (IH analysisId Hid Hv) as [Hz Hin];
           split; [exact Hz |]; rewrite He; apply elem_of_app; left; exact Hin).
    + apply analyzeStyle_Ok in Hstep as (a1 & a2 & _ & _ & ->). cbn in *.
      rewrite lookup_insert_ne in Hv by lia.
      destruct (IH analysisId) as [Hz Hin]; [lia | exact Hv |].
      split; [exact Hz |]. apply elem_of_app. left. exact Hin.
    + apply checkSignature_Ok in Hstep as (v0 & v1 & (data & Hnz & _) & ->).
      cbn in *.
      destruct (decide (requestToAnalysisId_at s requestId = analysisId)) as [<-|Hneq].
      * split; [exact Hnz |]. apply elem_of_app. right. apply list_elem_of_singleton.
        reflexivity.
      * rewrite lookup_insert_ne in Hv by exact Hneq.
        destruct (IH analysisId Hid Hv) as [Hz Hin].
        split; [exact Hz |]. apply elem_of_app. left. exact Hin.
Qed.

(** C10, as amended. The read never fails. In every storage the contract
    can reach it returns false for id 0; and for an id above
    [analysisCount] it returns false unless a [checkSignature] callback
    has been accepted for that id (a [VerificationCompleted] event carries
    it). *)
Theorem getVerificationStatus_unknown s :
  reachable s ->
  getVerificationStatus 0 s = false /\
  forall analysisId,
    analysisCount s < analysisId ->
    VerificationCompleted analysisId ∉ events s ->
    getVerificationStatus analysisId s = false.
Proof.
  intros Hs. split.
  - destruct (getVerificationStatus 0 s) eqn:Hv; [| reflexivity].
    destruct (unknown_verified_only_by_callback s Hs 0) as [Hz _];
      [left; lia | exact Hv | congruence].
  - intros analysisId Hgt Hnot.
    destruct (getVerificationStatus analysisId s) eqn:Hv; [| reflexivity].
    destruct (unknown_verified_only_by_callback s Hs analysisId) as [_ Hin];
      [right; exact Hgt | exact Hv | contradiction].
Qed.

End Status.

Section VerdictScenarios.
#[local] Existing Instance clearFHE.

Lemma verdict_kept_by_other_calls_witness :
  step score_callback verified
    = Ok (state_after (setup ++ [score_callback; VerifyAuthenticity 1 1;
                                 verify_callback 2 8000 9000; score_callback])) /\
  1 <= 1 <= analysisCount verified /\
  is_verdict_for verified 1 score_callback = false /\
  getVerificationStatus 1
    (state_after (setup ++ [score_callback; VerifyAuthenticity 1 1;
                            verify_callback 2 8000 9000; score_callback]))
    = getVerificationStatus 1 verified.
Proof.
  assert (H1 : step score_callback verified
    = Ok (state_after (setup ++ [score_callback; VerifyAuthenticity 1 1;
                                 verify_callback 2 8000 9000; score_callback]))).
  { apply (state_after_step
             (setup ++ [score_callback; VerifyAuthenticity 1 1;
                        verify_callback 2 8000 9000]) score_callback).
    vm_compute. reflexivity. }
  assert (H2 : 1 <= 1 <= analysisCount verified)
    by (vm_compute; split; discriminate).
  assert (H3 : is_verdict_for verified 1 score_callback = false) by reflexivity.
  split; [exact H1 |]. split; [exact H2 |]. split; [exact H3 |].
  exact (proj2 (verdict_kept_by_other_calls _ _ _ 1 H1 H2 H3)).
Defined.

(** Analysis 1 has its verdict (verified, callback accepted); a second
    verification round is requested and answered with similarity 5000,
    and the verdict of analysis 1 is now the opposite one. *)
Lemma verdict_overwritten_after_terminal :
  (VerificationCompleted 1 ∈ events verified) /\
  getVerificationStatus 1 verified = true /\
  run [VerifyAuthenticity 1 1; verify_callback 3 5000 9000] verified = Ok reverified /\
  getVerificationStatus 1 reverified = false.
Proof.
  split; [decide_by_compute |].
  split; [vm_compute; reflexivity |].
  split; [| vm_compute; reflexivity].
  apply (state_after_run
           (setup ++ [score_callback; VerifyAuthenticity 1 1;
                      verify_callback 2 8000 9000])
           [VerifyAuthenticity 1 1; verify_callback 3 5000 9000]).
  vm_compute. reflexivity.
Qed.

Lemma checkSignature_verdict_witness :
  checkSignature 2 (verify_payload 8000 9000)
    (attestation 2 (verify_payload 8000 9000)) verification_requested = Ok verified /\
  abi_decode_uint32_array (verify_payload 8000 9000) = Ok [8000; 9000] /\
  index [8000; 9000] 0 = Ok 8000 /\
  index [8000; 9000] 1 = Ok 9000 /\
  requestToAnalysisId_at verification_requested 2 = 1 /\
  getVerificationStatus 1 verified = true.
Proof.
  assert (H1 : checkSignature 2 (verify_payload 8000 9000)
                 (attestation 2 (verify_payload 8000 9000)) verification_requested
               = Ok verified) by exact verify_callback_runs.
  assert (H2 : abi_decode_uint32_array (verify_payload 8000 9000) = Ok [8000; 9000])
    by exact abi_decode_verify_payload.
  assert (H3 : index [8000; 9000] 0 = Ok 8000) by reflexivity.
  assert (H4 : index [8000; 9000] 1 = Ok 9000) by reflexivity.
  assert (H5 : requestToAnalysisId_at verification_requested 2 = 1)
    by (vm_compute; reflexivity).
  split; [exact H1 |]. split; [exact H2 |]. split; [exact H3 |]. split; [exact H4 |].
  split; [exact H5 |].
  pose proof (checkSignature_verdict _ _ _ _ _ _ _ _ H1 H2 H3 H4) as H.
  cbv zeta in H. rewrite H5 in H. destruct H as (_ & _ & Hv & _).
  exact (Hv eq_refl eq_refl).
Defined.

Lemma submitArtwork_counts_without_lookup_witness :
  submitArtwork 1000 11 21 5 init = Ok unattributed /\
  euint32_neq 5 (asEuint32 0) = true /\
  artistCount init = 0 /\
  getArtistArtworkCount 5 init = 0 /\
  getArtistArtworkCount 5 unattributed = 1 /\
  artistCount unattributed = 0.
Proof.
  assert (H1 : submitArtwork 1000 11 21 5 init = Ok unattributed)
    by exact unattributed_runs.
  assert (H2 : euint32_neq 5 (asEuint32 0) = true) by reflexivity.
  split; [exact H1 |]. split; [exact H2 |].
  split; [reflexivity |]. split; [reflexivity |].
  destruct (submitArtwork_counts_without_lookup _ _ _ _ _ _ H1 H2) as (Hc & Ha & _).
  split; [exact Hc | exact Ha].
Defined.

Lemma getVerificationStatus_unknown_witness :
  reachable scored /\
  getVerificationStatus 0 scored = false /\
  analysisCount scored < 2 /\
  (VerificationCompleted 2 ∉ events scored) /\
  getVerificationStatus 2 scored = false.
Proof.
  assert (H2 : analysisCount scored < 2) by (vm_compute; reflexivity).
  assert (H3 : VerificationCompleted 2 ∉ events scored) by decide_by_compute.
  destruct (getVerificationStatus_unknown scored scored_reachable) as [H0 Hgt].
  split; [exact scored_reachable |]. split; [exact H0 |].
  split; [exact H2 |]. split; [exact H3 |].
  exact (Hgt 2 H2 H3).
Defined.

(** No analysis exists ([analysisCount] is 0), and the read reports id 2 as
    verified: request 1, opened for the artwork pair (1, 2), was answered
    through [checkSignature]. *)
Lemma unknown_analysis_reported_verified :
  reachable cross_delivered /\
  analysisCount cross_delivered = 0 /\
  getVerificationStatus 2 cross_delivered = true.
Proof.
  split; [exact cross_delivered_reachable |].
  conj_compute.
Qed.

End VerdictScenarios.

(** * Further properties of the contract *)

(** ** What each transaction does to the storage *)

Section Transactions.
Context {fhe : FHELib}.

Lemma registerArtist_Ok signatureVector s s' :
  registerArtist signatureVector s = Ok s' <->
  artistCount s < uint256_max /\
  s' = set_artistProfile (artistCount s + 1) (ArtistProfile.mk signatureVector 0)
         (set_artistCount (artistCount s + 1) s).
Proof.
  unfold registerArtist. split.
  - intros H. step_bind H. apply checked_inc_Ok in Hbind as [Hlt ->].
    injection H as <-. auto.
  - intros [Hlt ->].
    assert (Hinc : checked_inc (artistCount s) = Ok (artistCount s + 1))
      by (apply checked_inc_Ok; auto).
    rewrite Hinc. reflexivity.
Qed.

Lemma submitArtwork_Ok now imageHash styleVector artistId s s' :
  submitArtwork now imageHash styleVector artistId s = Ok s' <->
  artworkCount s < uint256_max /\
  let n := artworkCount s + 1 in
  let s1 := set_artwork n (mkArtwork imageHash styleVector artistId now)
              (set_artworkCount n s) in
  if euint32_neq artistId (asEuint32 0) then
    let p := artistProfiles_at s (decrypt artistId) in
    ArtistProfile.artworkCount p < uint256_max /\
    s' = emit (ArtworkSubmitted n)
           (set_artistProfile (decrypt artistId)
              (ArtistProfile.mk (ArtistProfile.encryptedSignatureVector p)
                 (ArtistProfile.artworkCount p + 1)) s1)
  else s' = emit (ArtworkSubmitted n) s1.
Proof.
  unfold submitArtwork. split.
  - intros H. step_bind H. apply checked_inc_Ok in Hbind as [Hlt ->].
    split; [exact Hlt |]. cbv zeta.
    destruct (euint32_neq _ _).
    + step_bind H. step_bind Hbind. apply checked_inc_Ok in Hbind0 as [Hp ->].
      injection Hbind as <-. injection H as <-. split; [exact Hp | reflexivity].
    + cbn beta iota delta [mbind result_bind] in H. injection H as <-. reflexivity.
  - intros [Hlt H]. cbv zeta in H.
    assert (Hinc : checked_inc (artworkCount s) = Ok (artworkCount s + 1))
      by (apply checked_inc_Ok; auto).
    rewrite Hinc. cbn beta iota delta [mbind result_bind].
    destruct (euint32_neq _ _).
    + destruct H as [Hp ->].
      change (artistProfiles_at
                (set_artwork (artworkCount s + 1)
                   (mkArtwork imageHash styleVector artistId now)
                   (set_artworkCount (artworkCount s + 1) s)) (decrypt artistId))
        with (artistProfiles_at s (decrypt artistId)).
      assert (Hincp : checked_inc
                (ArtistProfile.artworkCount (artistProfiles_at s (decrypt artistId)))
              = Ok (ArtistProfile.artworkCount (artistProfiles_at s (decrypt artistId)) + 1))
        by (apply checked_inc_Ok; auto).
      rewrite Hincp. reflexivity.
    + rewrite H. reflexivity.
Qed.

Lemma requestAnalysisProof_Ok analysisId s s' :
  requestAnalysisProof analysisId s = Ok s' <->
  analysisId <= analysisCount s /\
  isVerified (styleMatches_at s analysisId) = true /\
  let cts := [toBytes32 (encryptedSimilarityScore (styleMatches_at s analysisId))] in
  s' = set_requestToAnalysisId (issued_token s cts decryptSimilarity_selector) analysisId
         (set_oracle (oracle_after s cts decryptSimilarity_selector) s).
Proof.
  unfold requestAnalysisProof, issued_token, oracle_after.
  destruct (requestDecryption _ _ _) as [reqId o] eqn:Hreq. cbn [fst snd].
  destruct (Z.leb_spec analysisId (analysisCount s)) as [Ha|Ha]; cbn;
    [| split; [discriminate | lia]].
  destruct (isVerified (styleMatches_at s analysisId)); cbn;
    [| split; [discriminate | intros (_ & ? & _); discriminate]].
  split.
  - intros [= <-]. auto.
  - intros (_ & _ & ->). reflexivity.
Qed.

End Transactions.

(** Case analysis on a transaction that went through. *)
Ltac inv_step H :=
  match type of H with
  | step ?c _ = Ok _ =>
      destruct c; cbn [step] in H;
      [ apply registerArtist_Ok in H as [? ->]
      | apply submitArtwork_Ok in H as [? H]; cbv zeta in H;
        destruct (euint32_neq _ _) eqn:?; [destruct H as [? ->] | subst]
      | apply requestStyleAnalysis_Ok in H as (? & ? & ->)
      | apply analyzeStyle_Ok in H as (? & ? & ? & ? & ->)
      | apply verifyAuthenticity_Ok in H as (? & ? & ->)
      | apply checkSignature_Ok in H as (? & ? & ? & ->)
      | apply requestAnalysisProof_Ok in H as (? & ? & ->)
      | apply decryptSimilarity_Ok in H as -> ]
  end.

Section StepEffects.
Context {fhe : FHELib}.

Lemma count_if_app {A} (p : A -> bool) (l1 l2 : list A) :
  count_if p (l1 ++ l2) = count_if p l1 + count_if p l2.
Proof. induction l1 as [|x l1 IH]; cbn [app count_if]; lia. Qed.

Lemma step_counters c s s' :
  step c s = Ok s' ->
  artworkCount s' = artworkCount s + (if is_SubmitArtwork c then 1 else 0) /\
  artistCount s' = artistCount s + (if is_RegisterArtist c then 1 else 0) /\
  analysisCount s' = analysisCount s + (if is_AnalyzeStyle c then 1 else 0).
Proof. intros H. inv_step H; cbn; repeat split; lia. Qed.

Lemma step_artworks c s s' :
  step c s = Ok s' ->
  if is_SubmitArtwork c
  then exists a, artworks s' = <[artworkCount s + 1 := a]> (artworks s)
  else artworks s' = artworks s.
Proof. intros H. inv_step H; cbn; eauto. Qed.

Lemma step_events c s s' :
  step c s = Ok s' ->
  count_if is_ArtworkSubmitted (events s')
    = count_if is_ArtworkSubmitted (events s) + (if is_SubmitArtwork c then 1 else 0) /\
  count_if is_StyleMatchFound (events s')
    = count_if is_StyleMatchFound (events s) + (if is_AnalyzeStyle c then 1 else 0).
Proof.
  intros H. inv_step H; cbn; rewrite ?count_if_app; cbn; split; lia.
Qed.

Lemma step_profiles c s s' id :
  step c s = Ok s' -> 1 <= id <= artistCount s ->
  ArtistProfile.encryptedSignatureVector (artistProfiles_at s' id)
    = ArtistProfile.encryptedSignatureVector (artistProfiles_at s id) /\
  ArtistProfile.artworkCount (artistProfiles_at s id)
    <= ArtistProfile.artworkCount (artistProfiles_at s' id) /\
  (is_Some (artistProfiles s !! id) -> is_Some (artistProfiles s' !! id)).
Proof.
  intros H Hid. unfold artistProfiles_at.
  inv_step H; cbn; try (repeat split; [lia | auto]).
  - rewrite lookup_insert_ne by lia. repeat split; [lia | auto].
  - destruct (decide (decrypt artistId = id)) as [->|Hne].
    + rewrite lookup_insert_eq. cbn. unfold artistProfiles_at.
      repeat split; [lia | eauto].
    + rewrite lookup_insert_ne by exact Hne. repeat split; [lia | auto].
Qed.

Lemma step_scores c s s' id :
  step c s = Ok s' -> 1 <= id <= analysisCount s ->
  encryptedSimilarityScore (styleMatches_at s' id)
    = encryptedSimilarityScore (styleMatches_at s id) /\
  encryptedReferenceId (styleMatches_at s' id)
    = encryptedReferenceId (styleMatches_at s id).
Proof.
  intros H Hid. unfold styleMatches_at.
  inv_step H; cbn; try (split; reflexivity).
  - rewrite lookup_insert_ne by lia. split; reflexivity.
  - destruct (decide (requestToAnalysisId_at s requestId = id)) as [->|Hne].
    + rewrite lookup_insert_eq. cbn. unfold styleMatches_at. split; reflexivity.
    + rewrite lookup_insert_ne by exact Hne. split; reflexivity.
Qed.

Lemma reachable_counters_nonneg s :
  reachable s -> 0 <= artworkCount s /\ 0 <= artistCount s /\ 0 <= analysisCount s.
Proof.
  induction 1 as [|s c s' Hs IH Hstep]; [cbn; lia |].
  destruct (step_counters c s s' Hstep) as (-> & -> & ->).
  destruct (is_SubmitArtwork c), (is_RegisterArtist c), (is_AnalyzeStyle c); lia.
Qed.

End StepEffects.


(** ** The record store *)

Section RecordStore.
Context {fhe : FHELib}.

Lemma reachable_artworks_bound s :
  reachable s ->
  forall id, is_Some (artworks s !! id) -> id <= artworkCount s.
Proof.
  intros Hs.
  induction Hs as [|s c s' Hs IH Hstep]; intros id.
  - cbn. rewrite lookup_empty. intros [? ?]; discriminate.
  - destruct (step_counters c s s' Hstep) as (Hc & _ & _).
    pose proof (step_artworks c s s' Hstep) as Hm.
    destruct (is_SubmitArtwork c).
    + destruct Hm as [a ->]. rewrite Hc.
      destruct (decide (artworkCount s + 1 = id)) as [<-|Hne]; [lia |].
      rewrite lookup_insert_ne by exact Hne. intros H. apply IH in H. lia.
    + rewrite Hm, Hc. intros H. apply IH in H. lia.
Qed.

(** X1. In every storage the contract can reach, the ids under which an
    artwork is stored are exactly 1 up to [artworkCount]: id 0 and the ids
    above the counter hold nothing, and no id below it is missing. *)
Theorem artworks_domain s :
  reachable s ->
  forall id, is_Some (artworks s !! id) <-> 1 <= id <= artworkCount s.
Proof.
  intros Hs.
  induction Hs as [|s c s' Hs IH Hstep]; intros id.
  - cbn. rewrite lookup_empty. split; [intros [? ?]; discriminate | lia].
  - pose proof (reachable_counters_nonneg s Hs) as (Hn & _ & _).
    destruct (step_counters c s s' Hstep) as (Hc & _ & _).
    pose proof (step_artworks c s s' Hstep) as Hm.
    destruct (is_SubmitArtwork c).
    + destruct Hm as [a ->]. rewrite Hc.
      destruct (decide (artworkCount s + 1 = id)) as [<-|Hne].
      * rewrite lookup_insert_eq. split; [lia | eauto].
      * rewrite lookup_insert_ne by exact Hne. rewrite IH. lia.
    + rewrite Hm, Hc, IH. lia.
Qed.

(** X2. A stored artwork is never modified or removed: whatever sequence
    of transactions goes through after it was stored, the same record is
    read back under its id. *)
Theorem artworks_immutable cs : forall s s' id a,
  reachable s -> run cs s = Ok s' ->
  artworks s !! id = Some a -> artworks s' !! id = Some a.
Proof.
  induction cs as [|c cs IH]; intros s s' id a Hs Hrun Ha; cbn [run] in Hrun.
  - injection Hrun as <-. exact Ha.
  - step_bind Hrun. rename a0 into s1.
    apply (IH s1 s' id a); [eapply reachable_step; eauto | exact Hrun |].
    assert (Hid : id <= artworkCount s)
      by (apply (reachable_artworks_bound s Hs); eauto).
    pose proof (step_artworks c s s1 Hbind) as Hm.
    destruct (is_SubmitArtwork c).
    + destruct Hm as [a' ->]. rewrite lookup_insert_ne by lia. exact Ha.
    + rewrite Hm. exact Ha.
Qed.

(** X3. Every artist id from 1 up to [artistCount] has a stored profile in
    every storage the contract can reach. *)
Theorem registered_artists_have_profiles s :
  reachable s ->
  forall id, 1 <= id <= artistCount s -> is_Some (artistProfiles s !! id).
Proof.
  intros Hs.
  induction Hs as [|s c s' Hs IH Hstep]; intros id Hid.
  - cbn in Hid. lia.
  - destruct (step_counters c s s' Hstep) as (_ & Hc & _).
    destruct (decide (id <= artistCount s)) as [Hle|Hgt].
    + apply (step_profiles c s s' id Hstep); [lia | apply IH; lia].
    + destruct c; cbn in Hc; try lia.
      cbn [step] in Hstep. apply registerArtist_Ok in Hstep as [_ ->]. cbn.
      replace id with (artistCount s + 1) by lia.
      rewrite lookup_insert_eq. eauto.
Qed.

(** X4. A registered artist's signature handle never changes and the
    artwork count of the profile never goes down, whatever sequence of
    transactions goes through. *)
Theorem artist_profile_stable cs : forall s s' id,
  run cs s = Ok s' -> 1 <= id <= artistCount s ->
  ArtistProfile.encryptedSignatureVector (artistProfiles_at s' id)
    = ArtistProfile.encryptedSignatureVector (artistProfiles_at s id) /\
  getArtistArtworkCount id s <= getArtistArtworkCount id s'.
Proof.
  unfold getArtistArtworkCount.
  induction cs as [|c cs IH]; intros s s' id Hrun Hid; cbn [run] in Hrun.
  - injection Hrun as <-. split; [reflexivity | lia].
  - step_bind Hrun. rename a into s1.
    destruct (step_profiles c s s1 id Hbind Hid) as (Hsig & Hcnt & _).
    destruct (step_counters c s s1 Hbind) as (_ & Hc & _).
    destruct (IH s1 s' id Hrun) as [Hsig' Hcnt'].
    { destruct (is_RegisterArtist c); lia. }
    split; [congruence | lia].
Qed.

End RecordStore.

(** ** Counters, events and scores *)

Section Counters.
Context {fhe : FHELib}.

(** X5. Over a sequence of transactions that all go through,
    [artworkCount] grows by the number of [submitArtwork] calls,
    [artistCount] by the number of [registerArtist] calls and
    [analysisCount] by the number of [analyzeStyle] callbacks; no other
    call moves a counter, and [getArtworkCount] reads the first of them. *)
Theorem counters_count_calls cs : forall s s',
  run cs s = Ok s' ->
  getArtworkCount s' = getArtworkCount s + count_if is_SubmitArtwork cs /\
  artistCount s' = artistCount s + count_if is_RegisterArtist cs /\
  analysisCount s' = analysisCount s + count_if is_AnalyzeStyle cs.
Proof.
  unfold getArtworkCount.
  induction cs as [|c cs IH]; intros s s' Hrun; cbn [run] in Hrun.
  - injection Hrun as <-. cbn. lia.
  - step_bind Hrun. rename a into s1.
    destruct (step_counters c s s1 Hbind) as (H1 & H2 & H3).
    destruct (IH s1 s' Hrun) as (H1' & H2' & H3').
    cbn [count_if]. lia.
Qed.

(** X6. In every storage the contract can reach, [artworkCount] is the
    number of [ArtworkSubmitted] events emitted so far and [analysisCount]
    the number of [StyleMatchFound] events. *)
Theorem counters_match_events s :
  reachable s ->
  artworkCount s = count_if is_ArtworkSubmitted (events s) /\
  analysisCount s = count_if is_StyleMatchFound (events s).
Proof.
  induction 1 as [|s c s' Hs IH Hstep]; [cbn; lia |].
  destruct (step_counters c s s' Hstep) as (H1 & _ & H3).
  destruct (step_events c s s' Hstep) as (E1 & E3).
  lia.
Qed.

(** X7. The similarity score and the reference id of a recorded analysis
    never change afterwards, whatever sequence of transactions goes
    through; only its verification flag can. *)
Theorem analysis_score_immutable cs : forall s s' id,
  run cs s = Ok s' -> 1 <= id <= analysisCount s ->
  encryptedSimilarityScore (styleMatches_at s' id)
    = encryptedSimilarityScore (styleMatches_at s id) /\
  encryptedReferenceId (styleMatches_at s' id)
    = encryptedReferenceId (styleMatches_at s id).
Proof.
  induction cs as [|c cs IH]; intros s s' id Hrun Hid; cbn [run] in Hrun.
  - injection Hrun as <-. split; reflexivity.
  - step_bind Hrun. rename a into s1.
    destruct (step_scores c s s1 id Hbind Hid) as (H1 & H2).
    destruct (step_counters c s s1 Hbind) as (_ & _ & Hc).
    destruct (IH s1 s' id Hrun) as [H1' H2'].
    { destruct (is_AnalyzeStyle c); lia. }
    split; congruence.
Qed.

(** X8. In every storage the contract can reach, every recorded analysis
    (ids 1 up to [analysisCount]) carries the encryption of zero as its
    similarity score. *)
Theorem stored_scores_are_zero s :
  reachable s ->
  forall id, 1 <= id <= analysisCount s ->
  encryptedSimilarityScore (styleMatches_at s id) = asEuint32 0.
Proof.
  induction 1 as [|s c s' Hs IH Hstep]; intros id Hid.
  - cbn in Hid. lia.
  - destruct (step_counters c s s' Hstep) as (_ & _ & Hc).
    destruct (decide (id <= analysisCount s)) as [Hle|Hgt].
    + destruct (step_scores c s s' id Hstep) as [-> _]; [lia |]. apply IH. lia.
    + destruct c; cbn in Hc; try lia.
      assert (id = analysisCount s') as -> by lia.
      exact (analyzeStyle_stores_zero _ _ _ _ _ Hstep).
Qed.

End Counters.

(** ** Proof disclosure *)

Section Disclosure.
Context {fhe : FHELib}.

Lemma requestAnalysisProof_is_ok analysisId s :
  is_ok (requestAnalysisProof analysisId s)
  = (analysisId <=? analysisCount s) && isVerified (styleMatches_at s analysisId).
Proof.
  unfold requestAnalysisProof.
  destruct (analysisId <=? analysisCount s); [| reflexivity].
  destruct (isVerified (styleMatches_at s analysisId)); [| reflexivity].
  cbn. destruct (requestDecryption _ _ _). reflexivity.
Qed.

(** X9. [requestAnalysisProof] fails with "Invalid analysis" for an id
    above [analysisCount], and with "Not verified" for an id within the
    counter whose analysis is not marked verified; for a verified one it
    goes through, leaves counters, artworks, profiles and style matches as
    they are, and records the analysis id under the request id issued. *)
Theorem requestAnalysisProof_outcomes analysisId s :
  (analysisCount s < analysisId ->
     requestAnalysisProof analysisId s = Err (Revert "Invalid analysis")) /\
  (analysisId <= analysisCount s -> getVerificationStatus analysisId s = false ->
     requestAnalysisProof analysisId s = Err (Revert "Not verified")) /\
  (analysisId <= analysisCount s -> getVerificationStatus analysisId s = true ->
     exists s',
       requestAnalysisProof analysisId s = Ok s' /\
       styleMatches s' = styleMatches s /\
       artworks s' = artworks s /\
       artistProfiles s' = artistProfiles s /\
       analysisCount s' = analysisCount s /\
       let cts := [toBytes32 (encryptedSimilarityScore (styleMatches_at s analysisId))] in
       oracle s' = oracle_after s cts decryptSimilarity_selector /\
       requestToAnalysisId_at s' (issued_token s cts decryptSimilarity_selector)
         = analysisId).
Proof.
  unfold getVerificationStatus. split; [| split].
  - intros Hgt. unfold requestAnalysisProof.
    destruct (Z.leb_spec analysisId (analysisCount s)); [lia | reflexivity].
  - intros Hle Hv. unfold requestAnalysisProof.
    destruct (Z.leb_spec analysisId (analysisCount s)); [| lia].
    rewrite Hv. reflexivity.
  - intros Hle Hv. eexists. split.
    + apply requestAnalysisProof_Ok. split; [exact Hle |].
      split; [exact Hv | reflexivity].
    + cbn. unfold requestToAnalysisId_at. cbn.
      rewrite lookup_insert_eq. repeat split.
Qed.

(** X10. After [checkSignature] has accepted a callback for a recorded
    analysis, [requestAnalysisProof] on that analysis goes through exactly
    when the delivered similarity was above 7000 and the signature match
    above 8000. *)
Theorem verdict_gates_disclosure requestId cleartexts proof s s'
    data similarityScore signatureMatch :
  checkSignature requestId cleartexts proof s = Ok s' ->
  abi_decode_uint32_array cleartexts = Ok data ->
  index data 0 = Ok similarityScore ->
  index data 1 = Ok signatureMatch ->
  requestToAnalysisId_at s requestId <= analysisCount s ->
  is_ok (requestAnalysisProof (requestToAnalysisId_at s requestId) s') = true <->
  7000 < similarityScore /\ 8000 < signatureMatch.
Proof.
  intros H Hdec H0 H1 Hle.
  apply checkSignature_Ok in H as (v0 & v1 & (data' & _ & _ & Hdec' & H0' & H1') & ->).
  assert (data' = data) as -> by congruence.
  assert (v0 = similarityScore) as -> by congruence.
  assert (v1 = signatureMatch) as -> by congruence.
  rewrite requestAnalysisProof_is_ok.
  assert (Hv : isVerified
                 (styleMatches_at
                    (emit (VerificationCompleted (requestToAnalysisId_at s requestId))
                       (set_isVerified (requestToAnalysisId_at s requestId)
                          ((7000 <? similarityScore) && (8000 <? signatureMatch)) s))
                    (requestToAnalysisId_at s requestId))
               = (7000 <? similarityScore) && (8000 <? signatureMatch)).
  { unfold styleMatches_at. cbn. rewrite lookup_insert_eq. reflexivity. }
  rewrite Hv. cbn [analysisCount emit set_isVerified set_styleMatch].
  destruct (Z.leb_spec (requestToAnalysisId_at s requestId) (analysisCount s)); [| lia].
  destruct (Z.ltb_spec 7000 similarityScore), (Z.ltb_spec 8000 signatureMatch);
    cbn; split; intros; try discriminate; try lia; auto.
Qed.

(** X11. [decryptSimilarity] never changes the storage. It accepts a
    callback exactly when an analysis id other than 0 is recorded under the
    request id, the proof checks out, and the payload holds at least one
    32-byte word whose value fits a [uint32]. *)
Theorem decryptSimilarity_accepts requestId cleartexts proof s s' :
  decryptSimilarity requestId cleartexts proof s = Ok s' <->
  requestToAnalysisId_at s requestId <> 0 /\
  checkSignatures (oracle s) requestId cleartexts proof = true /\
  32 <= data_size cleartexts /\
  word_at cleartexts 0 <= uint32_max /\
  s' = s.
Proof.
  unfold decryptSimilarity, do_checkSignatures, abi_decode_uint32, abi_decode_uint32_at.
  destruct (Z.eqb_spec (requestToAnalysisId_at s requestId) 0) as [Hz|Hz]; cbn;
    [split; [discriminate | intros (? & _); contradiction] |].
  destruct (checkSignatures _ _ _ _); cbn;
    [| split; [discriminate | intros (_ & ? & _); discriminate]].
  destruct (Z.ltb_spec (data_size cleartexts) 32); cbn;
    [split; [discriminate | intros (_ & _ & ? & _); lia] |].
  destruct (Z.leb_spec (word_at cleartexts 0) uint32_max); cbn.
  - split; [intros [= <-]; auto | intros (_ & _ & _ & _ & ->); reflexivity].
  - split; [discriminate | intros (_ & _ & _ & ? & _); lia].
Qed.

End Disclosure.

(** ** Callbacks: request ids and payload shape *)

Section PayloadShape.
Context {fhe : FHELib}.

Lemma index_Ok a i :
  0 <= i < array_length a -> index a i = Ok (nth (Z.to_nat i) a 0).
Proof.
  intros Hi. unfold index.
  destruct (Z.leb_spec 0 i); [| lia].
  destruct (Z.ltb_spec i (array_length a)); [reflexivity | lia].
Qed.

Lemma index_Err a i :
  ~ (0 <= i < array_length a) -> index a i = Err (Panic 0x32).
Proof.
  intros Hi. unfold index.
  destruct (Z.leb_spec 0 i); [| reflexivity].
  destruct (Z.ltb_spec i (array_length a)); [lia | reflexivity].
Qed.

(** X12. A callback for a request id under which nothing is recorded is
    turned down with "Invalid request" by all three handlers, whatever
    payload and proof come with it. *)
Theorem unknown_request_rejected requestId s :
  requestToAnalysisId s !! requestId = None ->
  forall cleartexts proof,
    analyzeStyle requestId cleartexts proof s = Err (Revert "Invalid request") /\
    checkSignature requestId cleartexts proof s = Err (Revert "Invalid request") /\
    decryptSimilarity requestId cleartexts proof s = Err (Revert "Invalid request").
Proof.
  intros Hnone cleartexts proof.
  unfold analyzeStyle, checkSignature, decryptSimilarity, requestToAnalysisId_at.
  rewrite Hnone. cbn [default].
  destruct (requestToArtworkId_at s requestId =? 0); repeat split.
Qed.


(** X14. For a recorded request with a valid proof, [analyzeStyle] reads
    the decoded array at [length/2] and [length/2 + 1] without checking its
    length: with fewer than three elements the call fails with an
    out-of-bounds panic, with three or more it goes through (as long as
    [analysisCount] can still be incremented). *)
Theorem analyzeStyle_payload_length requestId cleartexts proof s vectors :
  requestToArtworkId_at s requestId <> 0 ->
  requestToAnalysisId_at s requestId <> 0 ->
  checkSignatures (oracle s) requestId cleartexts proof = true ->
  abi_decode_uint32_array cleartexts = Ok vectors ->
  (array_length vectors < 3 ->
     analyzeStyle requestId cleartexts proof s = Err (Panic 0x32)) /\
  (3 <= array_length vectors -> analysisCount s < uint256_max ->
     is_ok (analyzeStyle requestId cleartexts proof s) = true).
Proof.
  intros Ha Hr Hsig Hdec.
  assert (Hlen : 0 <= array_length vectors) by (unfold array_length; lia).
  split.
  - intros Hshort. unfold analyzeStyle, do_checkSignatures.
    apply Z.eqb_neq in Ha, Hr. rewrite Ha, Hr, Hsig. cbn. rewrite Hdec. cbn.
    destruct (decide (array_length vectors = 0)) as [H0|H0].
    + rewrite (index_Err vectors (array_length vectors / 2))
        by (Z.to_euclidean_division_equations; lia).
      reflexivity.
    + rewrite (index_Ok vectors (array_length vectors / 2))
        by (Z.to_euclidean_division_equations; lia).
      rewrite (index_Err vectors (array_length vectors / 2 + 1))
        by (Z.to_euclidean_division_equations; lia).
      reflexivity.
  - intros Hlong Hlt.
    destruct (analyzeStyle requestId cleartexts proof s) as [s'|f] eqn:E;
      [reflexivity | exfalso].
    assert (Hok : exists s', analyzeStyle requestId cleartexts proof s = Ok s').
    { eexists. apply analyzeStyle_Ok. do 2 eexists. split; [| split; [exact Hlt | reflexivity]].
      exists vectors. repeat split; try assumption.
      - apply index_Ok. Z.to_euclidean_division_equations; lia.
      - apply index_Ok. Z.to_euclidean_division_equations; lia. }
    destruct Hok as [s' Hs']. congruence.
Qed.

(** X15. For a recorded request with a valid proof, [checkSignature]
    reads elements 0 and 1 of the decoded array without checking its
    length: with fewer than two elements the call fails with an
    out-of-bounds panic, with two or more it goes through. *)
Theorem checkSignature_payload_length requestId cleartexts proof s data :
  requestToAnalysisId_at s requestId <> 0 ->
  checkSignatures (oracle s) requestId cleartexts proof = true ->
  abi_decode_uint32_array cleartexts = Ok data ->
  (array_length data < 2 ->
     checkSignature requestId cleartexts proof s = Err (Panic 0x32)) /\
  (2 <= array_length data ->
     is_ok (checkSignature requestId cleartexts proof s) = true).
Proof.
  intros Hr Hsig Hdec.
  assert (Hlen : 0 <= array_length data) by (unfold array_length; lia).
  unfold checkSignature, do_checkSignatures.
  apply Z.eqb_neq in Hr. rewrite Hr, Hsig. cbn. rewrite Hdec. cbn.
  split.
  - intros Hshort.
    destruct (decide (array_length data = 0)) as [H0|H0].
    + rewrite (index_Err data 0) by lia. reflexivity.
    + rewrite (index_Ok data 0) by lia. rewrite (index_Err data 1) by lia.
      reflexivity.
  - intros Hlong. rewrite (index_Ok data 0), (index_Ok data 1) by lia. reflexivity.
Qed.

(** X16. For a recorded request with a valid proof, a payload shorter
    than one 32-byte word (the empty payload included) makes every
    handler fail in [abi.decode]. *)
Theorem truncated_payload_rejected requestId cleartexts proof s :
  requestToAnalysisId_at s requestId <> 0 ->
  checkSignatures (oracle s) requestId cleartexts proof = true ->
  data_size cleartexts < 32 ->
  checkSignature requestId cleartexts proof s = Err DecodeRevert /\
  decryptSimilarity requestId cleartexts proof s = Err DecodeRevert /\
  (requestToArtworkId_at s requestId <> 0 ->
     analyzeStyle requestId cleartexts proof s = Err DecodeRevert).
Proof.
  intros Hr Hsig Hsize.
  assert (Hdec : abi_decode_uint32_array cleartexts = Err DecodeRevert).
  { unfold abi_decode_uint32_array.
    destruct (Z.ltb_spec (data_size cleartexts) 32); [reflexivity | lia]. }
  assert (Hdec1 : abi_decode_uint32 cleartexts = Err DecodeRevert).
  { unfold abi_decode_uint32.
    destruct (Z.ltb_spec (data_size cleartexts) 32); [reflexivity | lia]. }
  unfold checkSignature, decryptSimilarity, analyzeStyle, do_checkSignatures.
  apply Z.eqb_neq in Hr. rewrite Hr, Hsig, Hdec, Hdec1. cbn.
  repeat split. intros Ha. apply Z.eqb_neq in Ha. rewrite Ha. reflexivity.
Qed.

End PayloadShape.

(** ** Rounds: a request and its callback *)

Section Rounds.
Context {fhe : FHELib}.

(** X17. When [requestStyleAnalysis] for a pair of ids is followed by an
    accepted [analyzeStyle] callback for the request id it issued, exactly
    one analysis is added, under the next id, and its reference id is the
    encryption of the second id of the pair cut to 32 bits; neither id of
    the pair is 0. *)
Theorem analysis_records_reference artworkId referenceId s s1 s2 cleartexts proof :
  requestStyleAnalysis artworkId referenceId s = Ok s1 ->
  analyzeStyle
    (issued_token s (style_ciphertexts s artworkId referenceId) analyzeStyle_selector)
    cleartexts proof s1 = Ok s2 ->
  analysisCount s2 = analysisCount s + 1 /\
  encryptedReferenceId (styleMatches_at s2 (analysisCount s2))
    = asEuint32 (to_uint32 referenceId) /\
  artworkId <> 0 /\ referenceId <> 0.
Proof.
  intros H1 H2.
  apply requestStyleAnalysis_Ok in H1 as (_ & _ & ->).
  apply analyzeStyle_Ok in H2 as (a1 & a2 & (vectors & Ha & Hr & _) & _ & ->).
  unfold requestToArtworkId_at in Ha. unfold requestToAnalysisId_at in Hr.
  cbn in Ha, Hr. rewrite lookup_insert_eq in Ha, Hr. cbn in Ha, Hr.
  unfold styleMatches_at, score_record, requestToAnalysisId_at. cbn.
  rewrite !lookup_insert_eq. cbn. repeat split; assumption.
Qed.

(** X18. An analysis is already marked verified when [analyzeStyle]
    records it exactly when the two artist ids read from the payload (at
    [length/2] and [length/2 + 1]) are equal and not 0. *)
Theorem same_artist_marks_verified requestId cleartexts proof s s'
    vectors artistId1 artistId2 :
  analyzeStyle requestId cleartexts proof s = Ok s' ->
  abi_decode_uint32_array cleartexts = Ok vectors ->
  index vectors (array_length vectors / 2) = Ok artistId1 ->
  index vectors (array_length vectors / 2 + 1) = Ok artistId2 ->
  getVerificationStatus (analysisCount s') s' = true <->
  artistId1 = artistId2 /\ artistId1 <> 0.
Proof.
  intros H Hdec H1 H2.
  apply analyzeStyle_Ok in H as (a1 & a2 & (v' & _ & _ & _ & Hdec' & H1' & H2') & _ & ->).
  assert (v' = vectors) as -> by congruence.
  assert (a1 = artistId1) as -> by congruence.
  assert (a2 = artistId2) as -> by congruence.
  unfold getVerificationStatus, styleMatches_at, score_record. cbn.
  rewrite lookup_insert_eq. cbn.
  destruct (Z.eqb_spec artistId1 artistId2), (Z.eqb_spec artistId1 0);
    cbn; split; intros; try discriminate; try tauto; try lia; auto.
Qed.

(** X19. [registerArtist] fails only when [artistCount] is at the top of
    its range. Otherwise the new artist gets the next id and a profile
    with the given signature and an artwork count of 0, whatever count
    earlier submissions had left under that id; every other profile and
    the other records stay as they were. *)
Theorem registerArtist_fresh_profile signatureVector s :
  (uint256_max <= artistCount s ->
     registerArtist signatureVector s = Err (Panic 0x11)) /\
  (artistCount s < uint256_max ->
     exists s',
       registerArtist signatureVector s = Ok s' /\
       artistCount s' = artistCount s + 1 /\
       artistProfiles_at s' (artistCount s') = ArtistProfile.mk signatureVector 0 /\
       getArtistArtworkCount (artistCount s') s' = 0 /\
       (forall id, id <> artistCount s' ->
          artistProfiles_at s' id = artistProfiles_at s id) /\
       artworks s' = artworks s /\ styleMatches s' = styleMatches s /\
       events s' = events s).
Proof.
  split.
  - intros Hmax. unfold registerArtist, checked_inc.
    destruct (Z.ltb_spec (artistCount s) uint256_max); [lia | reflexivity].
  - intros Hlt. eexists. split; [apply registerArtist_Ok; split; [exact Hlt | reflexivity] |].
    unfold getArtistArtworkCount, artistProfiles_at. cbn.
    rewrite lookup_insert_eq. cbn. repeat split.
    intros id Hne. rewrite lookup_insert_ne by congruence. reflexivity.
Qed.

(** X20. When [verifyAuthenticity] for an analysis is followed by an
    accepted [checkSignature] callback for the request id it issued, the
    verdict lands on that analysis: it is verified exactly when the
    delivered similarity is above 7000 and the signature match above 8000,
    its score and reference id are untouched, and every other analysis is
    left as it was. *)
Theorem verification_round analysisId artistId s s1 s2 cleartexts proof
    data similarityScore signatureMatch :
  verifyAuthenticity analysisId artistId s = Ok s1 ->
  checkSignature
    (issued_token s (verify_ciphertexts s analysisId artistId) checkSignature_selector)
    cleartexts proof s1 = Ok s2 ->
  abi_decode_uint32_array cleartexts = Ok data ->
  index data 0 = Ok similarityScore ->
  index data 1 = Ok signatureMatch ->
  getVerificationStatus analysisId s2
    = (7000 <? similarityScore) && (8000 <? signatureMatch) /\
  encryptedSimilarityScore (styleMatches_at s2 analysisId)
    = encryptedSimilarityScore (styleMatches_at s analysisId) /\
  encryptedReferenceId (styleMatches_at s2 analysisId)
    = encryptedReferenceId (styleMatches_at s analysisId) /\
  (forall id, id <> analysisId -> styleMatches_at s2 id = styleMatches_at s id) /\
  analysisCount s2 = analysisCount s.
Proof.
  intros H1 H2 Hdec H0 Hi1.
  apply verifyAuthenticity_Ok in H1 as (_ & _ & ->).
  apply checkSignature_Ok in H2 as (v0 & v1 & (data' & _ & _ & Hdec' & H0' & H1') & ->).
  assert (data' = data) as -> by congruence.
  assert (v0 = similarityScore) as -> by congruence.
  assert (v1 = signatureMatch) as -> by congruence.
  unfold getVerificationStatus, styleMatches_at, requestToAnalysisId_at. cbn.
  rewrite !lookup_insert_eq. cbn. repeat split.
  intros id Hne. rewrite lookup_insert_ne by congruence. reflexivity.
Qed.

End Rounds.

(** ** The further properties on the scenarios *)

Section FurtherScenarios.
#[local] Existing Instance clearFHE.

Lemma artworks_domain_witness :
  reachable scored /\
  is_Some (artworks scored !! 2) /\
  ~ is_Some (artworks scored !! 3) /\
  ~ is_Some (artworks scored !! 0).
Proof.
  pose proof (artworks_domain scored scored_reachable) as H.
  assert (Hc : artworkCount scored = 2) by (vm_compute; reflexivity).
  split; [exact scored_reachable |].
  split; [apply H; lia |].
  split; intros Hs; apply H in Hs; lia.
Defined.

Lemma artworks_immutable_witness :
  reachable requested /\
  run [score_callback; VerifyAuthenticity 1 1] requested = Ok verification_requested /\
  artworks requested !! 1 = Some (mkArtwork 11 21 1 1000) /\
  artworks verification_requested !! 1 = Some (mkArtwork 11 21 1 1000).
Proof.
  assert (H0 : reachable requested) by (apply state_after_reachable; vm_compute; reflexivity).
  assert (H1 : run [score_callback; VerifyAuthenticity 1 1] requested
               = Ok verification_requested).
  { apply (state_after_run setup [score_callback; VerifyAuthenticity 1 1]).
    vm_compute. reflexivity. }
  assert (H2 : artworks requested !! 1 = Some (mkArtwork 11 21 1 1000))
    by (vm_compute; reflexivity).
  split; [exact H0 |]. split; [exact H1 |]. split; [exact H2 |].
  exact (artworks_immutable _ _ _ _ _ H0 H1 H2).
Defined.

Lemma registered_artists_have_profiles_witness :
  reachable scored /\
  1 <= 1 <= artistCount scored /\
  is_Some (artistProfiles scored !! 1).
Proof.
  assert (H1 : 1 <= 1 <= artistCount scored) by (vm_compute; split; discriminate).
  split; [exact scored_reachable |]. split; [exact H1 |].
  exact (registered_artists_have_profiles scored scored_reachable 1 H1).
Defined.

Lemma artist_profile_stable_witness :
  run [SubmitArtwork 1000 11 21 1; SubmitArtwork 1001 12 22 1; RequestStyleAnalysis 1 2]
    (state_after [RegisterArtist 4242]) = Ok requested /\
  1 <= 1 <= artistCount (state_after [RegisterArtist 4242]) /\
  ArtistProfile.encryptedSignatureVector (artistProfiles_at requested 1)
    = ArtistProfile.encryptedSignatureVector
        (artistProfiles_at (state_after [RegisterArtist 4242]) 1) /\
  getArtistArtworkCount 1 (state_after [RegisterArtist 4242])
    <= getArtistArtworkCount 1 requested.
Proof.
  assert (H1 : run [SubmitArtwork 1000 11 21 1; SubmitArtwork 1001 12 22 1;
                    RequestStyleAnalysis 1 2]
                 (state_after [RegisterArtist 4242]) = Ok requested).
  { apply (state_after_run [RegisterArtist 4242]
             [SubmitArtwork 1000 11 21 1; SubmitArtwork 1001 12 22 1;
              RequestStyleAnalysis 1 2]).
    vm_compute. reflexivity. }
  assert (H2 : 1 <= 1 <= artistCount (state_after [RegisterArtist 4242]))
    by (vm_compute; split; discriminate).
  split; [exact H1 |]. split; [exact H2 |].
  exact (artist_profile_stable _ _ _ 1 H1 H2).
Defined.

Lemma counters_count_calls_witness :
  run setup init = Ok requested /\
  getArtworkCount requested = 2 /\
  artistCount requested = 1 /\
  analysisCount requested = 0.
Proof.
  split; [exact setup_runs |].
  destruct (counters_count_calls setup init requested setup_runs) as (H1 & H2 & H3).
  rewrite H1, H2, H3. conj_compute.
Defined.

Lemma counters_match_events_witness :
  reachable verified /\
  artworkCount verified = count_if is_ArtworkSubmitted (events verified) /\
  analysisCount verified = count_if is_StyleMatchFound (events verified).
Proof.
  split; [exact verified_reachable |].
  exact (counters_match_events verified verified_reachable).
Defined.

Lemma analysis_score_immutable_witness :
  run [VerifyAuthenticity 1 1; verify_callback 2 8000 9000] scored = Ok verified /\
  1 <= 1 <= analysisCount scored /\
  encryptedSimilarityScore (styleMatches_at verified 1)
    = encryptedSimilarityScore (styleMatches_at scored 1) /\
  encryptedReferenceId (styleMatches_at verified 1)
    = encryptedReferenceId (styleMatches_at scored 1).
Proof.
  assert (H1 : run [VerifyAuthenticity 1 1; verify_callback 2 8000 9000] scored
               = Ok verified).
  { apply (state_after_run (setup ++ [score_callback])
             [VerifyAuthenticity 1 1; verify_callback 2 8000 9000]).
    vm_compute. reflexivity. }
  assert (H2 : 1 <= 1 <= analysisCount scored) by (vm_compute; split; discriminate).
  split; [exact H1 |]. split; [exact H2 |].
  exact (analysis_score_immutable _ _ _ 1 H1 H2).
Defined.

Lemma stored_scores_are_zero_witness :
  reachable verified /\
  1 <= 1 <= analysisCount verified /\
  encryptedSimilarityScore (styleMatches_at verified 1) = 0.
Proof.
  assert (H1 : 1 <= 1 <= analysisCount verified) by (vm_compute; split; discriminate).
  split; [exact verified_reachable |]. split; [exact H1 |].
  exact (stored_scores_are_zero verified verified_reachable 1 H1).
Defined.

Lemma requestAnalysisProof_outcomes_witness :
  analysisCount scored < 5 /\
  requestAnalysisProof 5 scored = Err (Revert "Invalid analysis") /\
  1 <= analysisCount reverified /\
  getVerificationStatus 1 reverified = false /\
  requestAnalysisProof 1 reverified = Err (Revert "Not verified") /\
  1 <= analysisCount verified /\
  getVerificationStatus 1 verified = true /\
  exists s',
    requestAnalysisProof 1 verified = Ok s' /\
    styleMatches s' = styleMatches verified /\
    requestToAnalysisId_at s' 3 = 1.
Proof.
  destruct (requestAnalysisProof_outcomes 5 scored) as (Hhigh & _ & _).
  destruct (requestAnalysisProof_outcomes 1 reverified) as (_ & Hno & _).
  destruct (requestAnalysisProof_outcomes 1 verified) as (_ & _ & Hyes).
  assert (H1 : analysisCount scored < 5) by (vm_compute; reflexivity).
  assert (H2 : 1 <= analysisCount reverified) by (vm_compute; discriminate).
  assert (H3 : getVerificationStatus 1 reverified = false) by (vm_compute; reflexivity).
  assert (H4 : 1 <= analysisCount verified) by (vm_compute; discriminate).
  assert (H5 : getVerificationStatus 1 verified = true) by (vm_compute; reflexivity).
  assert (Htok : issued_token verified
                   [toBytes32 (encryptedSimilarityScore (styleMatches_at verified 1))]
                   decryptSimilarity_selector = 3) by (vm_compute; reflexivity).
  split; [exact H1 |]. split; [exact (Hhigh H1) |].
  split; [exact H2 |]. split; [exact H3 |]. split; [exact (Hno H2 H3) |].
  split; [exact H4 |]. split; [exact H5 |].
  destruct (Hyes H4 H5) as (s' & Hs' & Hm & _ & _ & _ & _ & Hr).
  rewrite Htok in Hr.
  exists s'. split; [exact Hs' |]. split; [exact Hm | exact Hr].
Defined.

Lemma verdict_gates_disclosure_witness :
  checkSignature 2 (verify_payload 8000 9000)
    (attestation 2 (verify_payload 8000 9000)) verification_requested = Ok verified /\
  abi_decode_uint32_array (verify_payload 8000 9000) = Ok [8000; 9000] /\
  index [8000; 9000] 0 = Ok 8000 /\
  index [8000; 9000] 1 = Ok 9000 /\
  requestToAnalysisId_at verification_requested 2 <= analysisCount verification_requested /\
  is_ok (requestAnalysisProof 1 verified) = true.
Proof.
  assert (H1 : checkSignature 2 (verify_payload 8000 9000)
                 (attestation 2 (verify_payload 8000 9000)) verification_requested
               = Ok verified) by exact verify_callback_runs.
  assert (H3 : index [8000; 9000] 0 = Ok 8000) by reflexivity.
  assert (H4 : index [8000; 9000] 1 = Ok 9000) by reflexivity.
  assert (H5 : requestToAnalysisId_at verification_requested 2
               <= analysisCount verification_requested) by (vm_compute; discriminate).
  assert (Hid : requestToAnalysisId_at verification_requested 2 = 1)
    by (vm_compute; reflexivity).
  split; [exact H1 |]. split; [exact abi_decode_verify_payload |].
  split; [exact H3 |]. split; [exact H4 |]. split; [exact H5 |].
  pose proof (verdict_gates_disclosure _ _ _ _ _ _ _ _ H1 abi_decode_verify_payload
                H3 H4 H5) as H.
  rewrite Hid in H. apply H. lia.
Defined.

Lemma decryptSimilarity_accepts_witness :
  decryptSimilarity 3 disclosure_payload (attestation 3 disclosure_payload)
    disclosure_requested = Ok disclosure_requested.
Proof.
  apply (proj2 (decryptSimilarity_accepts 3 disclosure_payload
                  (attestation 3 disclosure_payload)
                  disclosure_requested disclosure_requested)).
  split; [vm_compute; discriminate |].
  split; [vm_compute; reflexivity |].
  split; [vm_compute; discriminate |].
  split; [vm_compute; discriminate | reflexivity].
Defined.

Lemma unknown_request_rejected_witness :
  requestToAnalysisId requested !! 7 = None /\
  analyzeStyle 7 score_payload (attestation 7 score_payload) requested
    = Err (Revert "Invalid request") /\
  checkSignature 7 score_payload (attestation 7 score_payload) requested
    = Err (Revert "Invalid request") /\
  decryptSimilarity 7 score_payload (attestation 7 score_payload) requested
    = Err (Revert "Invalid request").
Proof.
  assert (H1 : requestToAnalysisId requested !! 7 = None) by (vm_compute; reflexivity).
  split; [exact H1 |].
  exact (unknown_request_rejected 7 requested H1 score_payload
           (attestation 7 score_payload)).
Defined.


Lemma analyzeStyle_payload_length_witness :
  requestToArtworkId_at requested 1 <> 0 /\
  requestToAnalysisId_at requested 1 <> 0 /\
  checkSignatures (oracle requested) 1 short_score_payload
    (attestation 1 short_score_payload) = true /\
  abi_decode_uint32_array short_score_payload = Ok [1; 1] /\
  analyzeStyle 1 short_score_payload (attestation 1 short_score_payload) requested
    = Err (Panic 0x32).
Proof.
  assert (H1 : requestToArtworkId_at requested 1 <> 0) by (vm_compute; discriminate).
  assert (H2 : requestToAnalysisId_at requested 1 <> 0) by (vm_compute; discriminate).
  assert (H3 : checkSignatures (oracle requested) 1 short_score_payload
                 (attestation 1 short_score_payload) = true) by (vm_compute; reflexivity).
  assert (H4 : abi_decode_uint32_array short_score_payload = Ok [1; 1])
    by (vm_compute; reflexivity).
  split; [exact H1 |]. split; [exact H2 |]. split; [exact H3 |]. split; [exact H4 |].
  destruct (analyzeStyle_payload_length 1 short_score_payload
              (attestation 1 short_score_payload) requested [1; 1] H1 H2 H3 H4)
    as [Hshort _].
  apply Hshort. reflexivity.
Defined.

Lemma checkSignature_payload_length_witness :
  requestToAnalysisId_at verification_requested 2 <> 0 /\
  checkSignatures (oracle verification_requested) 2 short_verify_payload
    (attestation 2 short_verify_payload) = true /\
  abi_decode_uint32_array short_verify_payload = Ok [8000] /\
  checkSignature 2 short_verify_payload (attestation 2 short_verify_payload)
    verification_requested = Err (Panic 0x32).
Proof.
  assert (H1 : requestToAnalysisId_at verification_requested 2 <> 0)
    by (vm_compute; discriminate).
  assert (H2 : checkSignatures (oracle verification_requested) 2 short_verify_payload
                 (attestation 2 short_verify_payload) = true) by (vm_compute; reflexivity).
  assert (H3 : abi_decode_uint32_array short_verify_payload = Ok [8000])
    by (vm_compute; reflexivity).
  split; [exact H1 |]. split; [exact H2 |]. split; [exact H3 |].
  destruct (checkSignature_payload_length 2 short_verify_payload
              (attestation 2 short_verify_payload) verification_requested [8000] H1 H2 H3)
    as [Hshort _].
  apply Hshort. reflexivity.
Defined.

Lemma truncated_payload_rejected_witness :
  requestToAnalysisId_at verification_requested 2 <> 0 /\
  checkSignatures (oracle verification_requested) 2 [] (attestation 2 []) = true /\
  data_size [] < 32 /\
  checkSignature 2 [] (attestation 2 []) verification_requested = Err DecodeRevert /\
  decryptSimilarity 2 [] (attestation 2 []) verification_requested = Err DecodeRevert.
Proof.
  assert (H1 : requestToAnalysisId_at verification_requested 2 <> 0)
    by (vm_compute; discriminate).
  assert (H2 : checkSignatures (oracle verification_requested) 2 [] (attestation 2 [])
               = true) by (vm_compute; reflexivity).
  assert (H3 : data_size [] < 32) by reflexivity.
  split; [exact H1 |]. split; [exact H2 |]. split; [exact H3 |].
  destruct (truncated_payload_rejected 2 [] (attestation 2 []) verification_requested
              H1 H2 H3) as (Hc & Hd & _).
  split; [exact Hc | exact Hd].
Defined.

Lemma analysis_records_reference_witness :
  requestStyleAnalysis 1 2 (state_after (removelast setup)) = Ok requested /\
  analyzeStyle 1 score_payload (attestation 1 score_payload) requested = Ok scored /\
  analysisCount scored = analysisCount (state_after (removelast setup)) + 1 /\
  encryptedReferenceId (styleMatches_at scored (analysisCount scored)) = 2.
Proof.
  assert (H1 : requestStyleAnalysis 1 2 (state_after (removelast setup)) = Ok requested)
    by exact request_runs.
  assert (H2 : analyzeStyle 1 score_payload (attestation 1 score_payload) requested
               = Ok scored) by exact score_callback_runs.
  assert (Htok : issued_token (state_after (removelast setup))
                   (style_ciphertexts (state_after (removelast setup)) 1 2)
                   analyzeStyle_selector = 1) by (vm_compute; reflexivity).
  split; [exact H1 |]. split; [exact H2 |].
  pose proof (analysis_records_reference 1 2 (state_after (removelast setup))
                requested scored score_payload (attestation 1 score_payload) H1) as H.
  rewrite Htok in H. destruct (H H2) as (Hc & Hr & _).
  split; [exact Hc | exact Hr].
Defined.

Lemma same_artist_marks_verified_witness :
  analyzeStyle 1 score_payload (attestation 1 score_payload) requested = Ok scored /\
  abi_decode_uint32_array score_payload = Ok [1; 2; 3; 4; 5; 6; 1; 1; 0; 0; 0; 0] /\
  getVerificationStatus (analysisCount scored) scored = true.
Proof.
  assert (H1 : analyzeStyle 1 score_payload (attestation 1 score_payload) requested
               = Ok scored) by exact score_callback_runs.
  split; [exact H1 |]. split; [exact abi_decode_score_payload |].
  apply (same_artist_marks_verified 1 score_payload (attestation 1 score_payload)
           requested scored [1; 2; 3; 4; 5; 6; 1; 1; 0; 0; 0; 0] 1 1 H1
           abi_decode_score_payload eq_refl eq_refl).
  split; [reflexivity | discriminate].
Defined.

Lemma registerArtist_fresh_profile_witness :
  getArtistArtworkCount 1 early_attribution = 1 /\
  artistCount early_attribution < uint256_max /\
  exists s',
    registerArtist 4242 early_attribution = Ok s' /\
    artistCount s' = 1 /\
    getArtistArtworkCount (artistCount s') s' = 0.
Proof.
  assert (H1 : artistCount early_attribution < uint256_max) by (vm_compute; reflexivity).
  destruct (registerArtist_fresh_profile 4242 early_attribution) as [_ Hok].
  destruct (Hok H1) as (s' & Hs' & Hc & _ & H0 & _).
  split; [vm_compute; reflexivity |]. split; [exact H1 |].
  exists s'. split; [exact Hs' |]. split; [| exact H0].
  rewrite Hc. vm_compute. reflexivity.
Defined.

Lemma verification_round_witness :
  verifyAuthenticity 1 1 scored = Ok verification_requested /\
  checkSignature 2 (verify_payload 8000 9000)
    (attestation 2 (verify_payload 8000 9000)) verification_requested = Ok verified /\
  abi_decode_uint32_array (verify_payload 8000 9000) = Ok [8000; 9000] /\
  getVerificationStatus 1 verified = true /\
  analysisCount verified = analysisCount scored.
Proof.
  assert (H1 : verifyAuthenticity 1 1 scored = Ok verification_requested)
    by exact verify_request_runs.
  assert (H2 : checkSignature 2 (verify_payload 8000 9000)
                 (attestation 2 (verify_payload 8000 9000)) verification_requested
               = Ok verified) by exact verify_callback_runs.
  assert (Htok : issued_token scored (verify_ciphertexts scored 1 1)
                   checkSignature_selector = 2) by (vm_compute; reflexivity).
  split; [exact H1 |]. split; [exact H2 |]. split; [exact abi_decode_verify_payload |].
  pose proof (verification_round 1 1 scored verification_requested verified
                (verify_payload 8000 9000) (attestation 2 (verify_payload 8000 9000))
                [8000; 9000] 8000 9000 H1) as H.
  rewrite Htok in H.
  destruct (H H2 abi_decode_verify_payload eq_refl eq_refl) as (Hv & _ & _ & _ & Hc).
  split; [exact Hv | exact Hc].
Defined.

End FurtherScenarios.
